(** * predict.py: prompt/seed preparation, interpolation driver, slerp

    A shallow embedding of [src/predict.py].

    - Python [str] values are [string]s whose characters are code points
      below 256; [str.split], [str.strip], [str.isdigit] and [int] are
      written out on that range.
    - Python [int] is [Z]; Python [float] is idealised by exact rationals
      ([Q]).  numpy's array arithmetic and transcendental functions are an
      interface ([Numpy]); torch, the diffusion pipeline and the operating
      system (entropy, the encoder subprocess) are interfaces as well.  The
      calls into them are assumed to return, but for the seeding of a torch
      generator, which raises on a seed that does not fit 64 bits.
    - The run is a computation in a state-and-exception monad over a
      [world] (entropy cursor, standard output, frame directory, shell log);
      an exception keeps the effects performed before it. *)

From Stdlib Require Import ZArith QArith List String Ascii Bool Lia DecimalString DecimalPos.
From Stdlib Require Strings.Byte.
Import ListNotations.

Local Open Scope string_scope.
Local Open Scope list_scope.
Local Open Scope Z_scope.

Set Implicit Arguments.

(** ** Exceptions and results *)

Inductive exn : Type :=
| AssertionError (msg : string)
| ValueError (msg : string)
| UnboundLocalError (name : string)
| NameError (name : string)
| RuntimeError (msg : string)
| SystemExit (status : Z).

Inductive result (A : Type) : Type :=
| Ok (a : A)
| Raise (e : exn).

Arguments Ok {A} a.
Arguments Raise {A} e.

(** ** Python string primitives (code points below 256) *)

Module Py.

(** [str.isspace] on one character: TAB..CR, FS..US, SPACE, NEL, NBSP. *)
Definition isspace (c : ascii) : bool :=
  let n := N.of_nat (nat_of_ascii c) in
  ((9 <=? n) && (n <=? 13) || (28 <=? n) && (n <=? 32)
   || (n =? 133) || (n =? 160))%N.

(** ASCII decimal digits, the only digits [int] converts. *)
Definition isdecimal_char (c : ascii) : bool :=
  let n := N.of_nat (nat_of_ascii c) in ((48 <=? n) && (n <=? 57))%N.

(** Characters with a Unicode digit value: the ASCII digits and the
    superscripts U+00B2, U+00B3, U+00B9. *)
Definition isdigit_char (c : ascii) : bool :=
  let n := N.of_nat (nat_of_ascii c) in
  (isdecimal_char c || (n =? 178) || (n =? 179) || (n =? 185))%N.

Fixpoint forallb_str (p : ascii -> bool) (s : string) : bool :=
  match s with
  | EmptyString => true
  | String c r => p c && forallb_str p r
  end.

(** [s.isdigit()]: non-empty and every character is a digit. *)
Definition isdigit (s : string) : bool :=
  match s with
  | EmptyString => false
  | _ => forallb_str isdigit_char s
  end.

(** [s.count(c)] for a one-character [c] *)
Fixpoint count (c : ascii) (s : string) : nat :=
  match s with
  | EmptyString => O
  | String x r => if Ascii.eqb x c then S (count c r) else count c r
  end.

(** [s.split(sep)] for a one-character separator: no entry is dropped. *)
Fixpoint split (sep : ascii) (s : string) : list string :=
  match s with
  | EmptyString => [EmptyString]
  | String c r =>
      if Ascii.eqb c sep then EmptyString :: split sep r
      else match split sep r with
           | h :: t => String c h :: t
           | [] => [String c EmptyString]
           end
  end.

Fixpoint lstrip (s : string) : string :=
  match s with
  | EmptyString => EmptyString
  | String c r => if isspace c then lstrip r else s
  end.

Fixpoint rstrip (s : string) : string :=
  match s with
  | EmptyString => EmptyString
  | String c r =>
      match rstrip r with
      | EmptyString => if isspace c then EmptyString else String c EmptyString
      | r' => String c r'
      end
  end.

(** [s.strip()] *)
Definition strip (s : string) : string := rstrip (lstrip s).

Definition digit_value (c : ascii) : Z := Z.of_nat (nat_of_ascii c) - 48.

Fixpoint decimal_value (acc : Z) (s : string) : Z :=
  match s with
  | EmptyString => acc
  | String c r => decimal_value (10 * acc + digit_value c) r
  end.

Definition is_decimal_literal (s : string) : bool :=
  match s with
  | EmptyString => false
  | _ => forallb_str isdecimal_char s
  end.

(** [int(s)] on a string that holds no whitespace, sign or underscore (the
    strings that reach it passed [isdigit]).  [max_str_digits] is the
    interpreter's limit on the length of a decimal literal (0: no limit). *)
Definition int (max_str_digits : nat) (s : string) : result Z :=
  if negb (is_decimal_literal s) then
    Raise (ValueError "invalid literal for int() with base 10")
  else if negb (Nat.eqb max_str_digits 0) && Nat.ltb max_str_digits (String.length s) then
    Raise (ValueError "Exceeds the limit for integer string conversion")
  else Ok (decimal_value 0 s).

(** [str(n)] *)
Definition str (n : Z) : string := NilZero.string_of_int (Z.to_int n).

Fixpoint zeros (n : nat) : string :=
  match n with
  | O => EmptyString
  | S k => String "0" (zeros k)
  end.

(** ["%06d" % n] *)
Definition fmt_06d (n : Z) : string :=
  let digits := str (Z.abs n) in
  if n <? 0 then ("-" ++ zeros (5 - String.length digits) ++ digits)%string
  else (zeros (6 - String.length digits) ++ digits)%string.

(** [int.from_bytes(bs, "big")] *)
Definition int_from_bytes_big (bs : list Byte.byte) : Z :=
  fold_left (fun acc b => 256 * acc + Z.of_N (Byte.to_N b)) bs 0.

End Py.

(** ** Collaborators *)

(** numpy: arrays, numpy scalars and the operations [slerp] applies to them.
    A Python float operand is a [Q]. *)
Class Numpy : Type := {
  ndarray : Type;
  npfloat : Type;
  np_mul : ndarray -> ndarray -> ndarray;       (* v0 * v1 *)
  np_div : ndarray -> npfloat -> ndarray;       (* array / scalar *)
  np_add : ndarray -> ndarray -> ndarray;       (* a + b *)
  np_scale : npfloat -> ndarray -> ndarray;     (* numpy scalar * array *)
  py_scale : Q -> ndarray -> ndarray;           (* Python float * array *)
  np_sum : ndarray -> npfloat;                  (* np.sum *)
  np_linalg_norm : ndarray -> npfloat;          (* np.linalg.norm *)
  np_abs : npfloat -> npfloat;                  (* np.abs *)
  np_arccos : npfloat -> npfloat;               (* np.arccos *)
  np_sin : npfloat -> npfloat;                  (* np.sin *)
  np_fmul : npfloat -> npfloat -> npfloat;      (* scalar * scalar *)
  np_fsub : npfloat -> npfloat -> npfloat;      (* scalar - scalar *)
  np_fdiv : npfloat -> npfloat -> npfloat;      (* scalar / scalar *)
  np_fmul_py : npfloat -> Q -> npfloat;         (* numpy scalar * Python float *)
  np_gt_py : npfloat -> Q -> bool               (* numpy scalar > Python float *)
}.

(** torch: tensors are arrays placed on a device. *)
Class Torch (np : Numpy) : Type := {
  device : Type;
  (* torch.randn(shape, device=d, generator=g) for a generator g on d that
     was seeded with a seed [manual_seed] accepts *)
  torch_randn : device -> Z -> device * ndarray;
  (* torch.lerp(a, b, w) *)
  torch_lerp : device * ndarray -> device * ndarray -> Q -> device * ndarray
}.

Section Values.

Context {np : Numpy} {tc : Torch np}.

Definition tensor : Type := (device * ndarray)%type.

(** [v.device] and [v.cpu().numpy()] *)
Definition tensor_device (v : tensor) : device := fst v.
Definition cpu_numpy (v : tensor) : ndarray := snd v.

(** [torch.from_numpy(a).to(d)] *)
Definition from_numpy_to (a : ndarray) (d : device) : tensor := (d, a).

(** [torch.Generator.manual_seed] accepts the seeds a 64-bit integer holds,
    signed or unsigned, and raises [RuntimeError] on any other. *)
Definition manual_seed_ok (seed : Z) : bool :=
  (- 2 ^ 63 <=? seed) && (seed <=? 2 ^ 64 - 1).

(** [torch.randn(shape, device=d,
                 generator=torch.Generator(device=d).manual_seed(seed))] *)
Definition seeded_randn (d : device) (seed : Z) : result tensor :=
  if manual_seed_ok seed then Ok (torch_randn d seed)
  else Raise (RuntimeError "Overflow when unpacking long").

(** What [slerp] hands back: a numpy array or a torch tensor. *)
Inductive value : Type :=
| NdArray (a : ndarray)
| TorchTensor (v : tensor).

(** What [slerp] is handed: both vectors come in the same representation. *)
Inductive operands : Type :=
| Arrays (v0 v1 : ndarray)
| Tensors (v0 v1 : tensor).

End Values.

Inductive scheduler_choice : Type := default | ddim | klms.

(** The diffusion pipeline. *)
Class Pipeline (np : Numpy) (tc : Torch np) : Type := {
  image : Type;
  (* self.pipeline.device *)
  pipeline_device : device;
  (* self.pipeline.embed_text(prompt) *)
  embed_text : string -> tensor;
  (* self.pipeline(latents=..., text_embeddings=..., ...)["sample"][0] with
     self.pipeline.scheduler set to the chosen scheduler *)
  pipeline_sample :
    scheduler_choice -> forall (latents text_embeddings : value)
      (height width : Z) (guidance_scale eta : Q) (num_inference_steps : Z), image
}.

(** How a [subprocess.call] ends: the shell returns an exit status (127 when
    the binary is missing), or the wait is broken by a keyboard interrupt. *)
Inductive call_outcome : Type :=
| Returned (status : Z)
| KeyboardInterrupt.

(** The operating system: the bytes [os.urandom] will deliver, in order, and
    the fate of a shell command. *)
Class OS : Type := {
  entropy : nat -> Byte.byte;
  subprocess_call : string -> call_outcome
}.

(** ** numpy.linspace *)

Fixpoint zrange (a : Z) (n : nat) : list Z :=
  match n with
  | O => []
  | S k => a :: zrange (a + 1) k
  end.

Fixpoint set_last {A : Type} (l : list A) (x : A) : list A :=
  match l with
  | [] => []
  | [_] => [x]
  | a :: r => a :: set_last r x
  end.

(** The samples of [np.linspace(start, stop, num)] with [endpoint=True]:
    [arange(num)] scaled by [step = (stop - start) / (num - 1)] (by
    [stop - start] when [num - 1] is not positive), shifted by [start], the
    last entry overwritten with [stop] when [num > 1]. *)
Definition linspace_samples (start stop : Q) (num : Z) : list Q :=
  let div := num - 1 in
  let delta := (stop - start)%Q in
  let y := map inject_Z (zrange 0 (Z.to_nat num)) in
  let y := if 0 <? div
           then let step := (delta / inject_Z div)%Q in map (fun v => v * step)%Q y
           else map (fun v => v * delta)%Q y in
  let y := map (fun v => v + start)%Q y in
  if 1 <? num then set_last y stop else y.

(** [np.linspace(start, stop, num)] *)
Definition linspace (start stop : Q) (num : Z) : result (list Q) :=
  if num <? 0 then
    Raise (ValueError ("Number of samples, " ++ Py.str num ++ ", must be non-negative."))
  else Ok (linspace_samples start stop num).

Fixpoint enumerate_from {A : Type} (i : Z) (l : list A) : list (Z * A) :=
  match l with
  | [] => []
  | a :: r => (i, a) :: enumerate_from (i + 1) r
  end.

(** [enumerate(l)] *)
Definition enumerate {A : Type} (l : list A) : list (Z * A) := enumerate_from 0 l.

(** ** slerp *)

Section Slerp.

Context {np : Numpy} {tc : Torch np}.

Definition DOT_THRESHOLD : Q := 9995 # 10000.

(** The numeric body of [slerp], lines 210-220, on arrays. *)
Definition slerp_numpy (t : Q) (v0 v1 : ndarray) : ndarray :=
  let dot :=
    np_sum (np_div (np_mul v0 v1)
                   (np_fmul (np_linalg_norm v0) (np_linalg_norm v1))) in
  if np_gt_py (np_abs dot) DOT_THRESHOLD then
    np_add (py_scale (1 - t)%Q v0) (py_scale t v1)
  else
    let theta_0 := np_arccos dot in
    let sin_theta_0 := np_sin theta_0 in
    let theta_t := np_fmul_py theta_0 t in
    let sin_theta_t := np_sin theta_t in
    let s0 := np_fdiv (np_sin (np_fsub theta_0 theta_t)) sin_theta_0 in
    let s1 := np_fdiv sin_theta_t sin_theta_0 in
    np_add (np_scale s0 v0) (np_scale s1 v1).

(** [slerp(t, v0, v1)].  The locals [inputs_are_torch] and [input_device]
    are bound only on the branch taken for an input that is not an
    [np.ndarray]; reading an unbound local raises [UnboundLocalError]. *)
Definition slerp (t : Q) (vs : operands) : result value :=
  let '(inputs_are_torch, input_device, v0, v1) :=
    match vs with
    | Tensors v0 v1 =>
        (Some true, Some (tensor_device v0), cpu_numpy v0, cpu_numpy v1)
    | Arrays v0 v1 => (None, None, v0, v1)
    end in
  let v2 := slerp_numpy t v0 v1 in
  match inputs_are_torch with
  | None => Raise (UnboundLocalError "inputs_are_torch")
  | Some true =>
      match input_device with
      | None => Raise (UnboundLocalError "input_device")
      | Some d => Ok (TorchTensor (from_numpy_to v2 d))
      end
  | Some false => Ok (NdArray v2)
  end.

End Slerp.

(** ** The world and the monad of a run *)

Section Run.

Context {np : Numpy} {tc : Torch np} {pl : Pipeline tc} {os : OS}.

(** [int_max_str_digits]: the interpreter's [sys.get_int_max_str_digits()]. *)
Variable int_max_str_digits : nat.

Record world : Type := mkWorld {
  urandom_read : nat;                   (* bytes of entropy consumed so far *)
  stdout : list string;                 (* lines printed, oldest first *)
  cog_out : list (string * image);      (* files saved in the frame directory *)
  shell_log : list string               (* commands handed to the shell *)
}.

Definition M (A : Type) : Type := world -> result A * world.

Definition ret {A : Type} (a : A) : M A := fun w => (Ok a, w).

Definition raise {A : Type} (e : exn) : M A := fun w => (Raise e, w).

Definition bind {A B : Type} (m : M A) (k : A -> M B) : M B :=
  fun w =>
    match m w with
    | (Ok a, w') => k a w'
    | (Raise e, w') => (Raise e, w')
    end.

Notation "x <- m ;; k" := (bind m (fun x => k))
  (at level 61, m at next level, right associativity).
Notation "m ;; k" := (bind m (fun _ => k))
  (at level 61, right associativity).

Definition lift {A : Type} (r : result A) : M A := fun w => (r, w).

(** [print(line)] *)
Definition print (line : string) : M unit :=
  fun w => (Ok tt, mkWorld (urandom_read w) (stdout w ++ [line]) (cog_out w) (shell_log w)).

(** [os.urandom(n)] *)
Definition os_urandom (n : nat) : M (list Byte.byte) :=
  fun w => (Ok (map entropy (seq (urandom_read w) n)),
            mkWorld (urandom_read w + n) (stdout w) (cog_out w) (shell_log w)).

(** [shutil.rmtree(outdir)] when it exists, then [os.makedirs(outdir)] *)
Definition recreate_outdir : M unit :=
  fun w => (Ok tt, mkWorld (urandom_read w) (stdout w) [] (shell_log w)).

(** [im.save(path)] *)
Definition save (path : string) (im : image) : M unit :=
  fun w => (Ok tt, mkWorld (urandom_read w) (stdout w) (cog_out w ++ [(path, im)]) (shell_log w)).

(** [call(command, shell=True)]: the command is handed to the shell; the
    call returns its exit status or is broken by a keyboard interrupt. *)
Definition call (command : string) : M call_outcome :=
  fun w => (Ok (subprocess_call command),
            mkWorld (urandom_read w) (stdout w) (cog_out w) (shell_log w ++ [command])).

(** Names bound at module level by lines 1-15 and by the definitions of the
    module. *)
Definition module_globals : list string :=
  ["os"; "call"; "Optional"; "List"; "shutil"; "np"; "torch"; "autocast";
   "DDIMScheduler"; "LMSDiscreteScheduler"; "PNDMScheduler"; "Image";
   "BasePredictor"; "Input"; "Path"; "StableDiffusionPipeline";
   "MODEL_CACHE"; "Predictor"; "run_cmd"; "slerp"].

(** The builtins the module refers to. *)
Definition builtins : list string :=
  ["print"; "int"; "len"; "range"; "zip"; "enumerate"; "float"; "str";
   "isinstance"; "KeyboardInterrupt"].

(** Reading a global name inside a function body. *)
Definition load_global (name : string) : M unit :=
  if existsb (String.eqb name) (module_globals ++ builtins) then ret tt
  else raise (NameError name).

(** [run_cmd(command)], lines 193-198 *)
Definition run_cmd (command : string) : M unit :=
  outcome <- call command ;;
  match outcome with
  | Returned _ => ret tt
  | KeyboardInterrupt =>
      print "Process interrupted" ;;
      load_global "sys" ;;
      raise (SystemExit 1)
  end.

(** ** Prompt/seed preparation, lines 85-102 *)

Fixpoint mapM {A B : Type} (f : A -> M B) (l : list A) : M (list B) :=
  match l with
  | [] => ret []
  | a :: r => b <- f a ;; bs <- mapM f r ;; ret (b :: bs)
  end.

(** [[int.from_bytes(os.urandom(2), "big") for s in range(n)]] *)
Definition random_seeds (n : nat) : M (list Z) :=
  mapM (fun _ => bs <- os_urandom 2 ;; ret (Py.int_from_bytes_big bs)) (seq 0 n).

(** [for s in seeds: assert s.isdigit(), "Please provide integer seed."] *)
Fixpoint assert_all_isdigit (tokens : list string) : M unit :=
  match tokens with
  | [] => ret tt
  | s :: r =>
      if Py.isdigit s then assert_all_isdigit r
      else raise (AssertionError "Please provide integer seed.")
  end.

Definition prepare (prompts : string) (seeds : option string)
  : M (list string * list Z) :=
  let prompts := map Py.strip (Py.split "|" prompts) in
  match seeds with
  | None =>
      print "Setting Random seeds." ;;
      seeds <- random_seeds (List.length prompts) ;;
      ret (prompts, seeds)
  | Some seeds =>
      let seeds := map Py.strip (Py.split "|" seeds) in
      assert_all_isdigit seeds ;;
      seeds <- mapM (fun s => lift (Py.int int_max_str_digits s)) seeds ;;
      if (List.length prompts <? List.length seeds)%nat then
        ret (prompts, firstn (List.length prompts) seeds)
      else
        let seeds_not_set := (List.length prompts - List.length seeds)%nat in
        print "Setting Random seeds." ;;
        more <- random_seeds seeds_not_set ;;
        ret (prompts, seeds ++ more)
  end.

(** ** Interpolation driver, lines 123-175 *)

Definition height : Z := 512.
Definition width : Z := 512.
Definition eta : Q := 0.
Definition use_lerp_for_text : bool := false.
Definition outdir : string := "cog_out".

(** [os.path.join(outdir, name)] *)
Definition os_path_join (dir name : string) : string := (dir ++ "/" ++ name)%string.

Definition frame_path (frame_index : Z) : string :=
  os_path_join outdir ("frame" ++ Py.fmt_06d frame_index ++ ".jpg")%string.

Section Driver.

Variable scheduler : scheduler_choice.
Variable num_inference_steps : Z.
Variable guidance_scale : Q.
Variable num_steps : Z.

(** The inner loop over [enumerate(np.linspace(0, 1, num_steps))]; [total]
    is [len(seeds) * num_steps].  Returns the frame counter. *)
Fixpoint steps_loop (total : Z) (embeds_a embeds_b latents_a latents_b : tensor)
    (its : list (Z * Q)) (frame_index : Z) : M Z :=
  match its with
  | [] => ret frame_index
  | (i, t) :: rest =>
      let do_print_progress := (i =? 0) || ((frame_index + 1) mod 20 =? 0) in
      (if do_print_progress
       then print ("COUNT: " ++ Py.str (frame_index + 1) ++ "/" ++ Py.str total)%string
       else ret tt) ;;
      embeds <- (if use_lerp_for_text
                 then ret (TorchTensor (torch_lerp embeds_a embeds_b t))
                 else lift (slerp t (Tensors embeds_a embeds_b))) ;;
      latents <- lift (slerp t (Tensors latents_a latents_b)) ;;
      let im := pipeline_sample scheduler latents embeds height width
                  guidance_scale eta num_inference_steps in
      save (frame_path frame_index) im ;;
      steps_loop total embeds_a embeds_b latents_a latents_b rest (frame_index + 1)
  end.

(** The outer loop over [zip(prompts, seeds)]. *)
Fixpoint pairs_loop (total : Z) (embeds_a latents_a : tensor)
    (pairs : list (string * Z)) (frame_index : Z) : M Z :=
  match pairs with
  | [] => ret frame_index
  | (prompt, seed) :: rest =>
      let embeds_b := embed_text prompt in
      latents_b <- lift (seeded_randn pipeline_device seed) ;;
      ts <- lift (linspace 0 1 num_steps) ;;
      frame_index <- steps_loop total embeds_a embeds_b latents_a latents_b
                       (enumerate ts) frame_index ;;
      pairs_loop total embeds_b latents_b rest frame_index
  end.

(** Lines 123-175 on the aligned prompt and seed lists. *)
Definition interpolate (prompts : list string) (seeds : list Z) : M Z :=
  match prompts with
  | [] => raise (ValueError "not enough values to unpack")
  | first_prompt :: prompts =>
      let embeds_a := embed_text first_prompt in
      match seeds with
      | [] => raise (ValueError "not enough values to unpack")
      | first_seed :: seeds =>
          latents_a <- lift (seeded_randn pipeline_device first_seed) ;;
          let frame_index := 0 in
          pairs_loop (Z.of_nat (List.length seeds) * num_steps) embeds_a latents_a
            (combine prompts seeds) frame_index
      end
  end.

End Driver.

(** ** predict *)

Definition video_path : string := "/tmp/out.mp4".

Definition encoder_command (fps : Z) : string :=
  ("ffmpeg -y -r " ++ Py.str fps ++ " -i " ++ os_path_join outdir "frame%06d.jpg"
   ++ " -vcodec libx264 -crf 25  -pix_fmt yuv420p " ++ video_path)%string.

Fixpoint print_seeds (pairs : list (string * Z)) : M unit :=
  match pairs with
  | [] => ret tt
  | (prompt, seed) :: rest =>
      print (prompt ++ ": " ++ Py.str seed)%string ;; print_seeds rest
  end.

Definition predict (prompts : string) (seeds : option string)
    (scheduler : scheduler_choice) (num_inference_steps : Z) (guidance_scale : Q)
    (num_steps : Z) (fps : Z) : M string :=
  ps <- prepare prompts seeds ;;
  let '(prompts, seeds) := ps in
  print "Seeds used for prompts are:" ;;
  print_seeds (combine prompts seeds) ;;
  recreate_outdir ;;
  interpolate scheduler num_inference_steps guidance_scale num_steps prompts seeds ;;
  run_cmd (encoder_command fps) ;;
  ret video_path.

End Run.

(** ** What a run is expected to leave behind *)

Section Expected.

Context {np : Numpy} {tc : Torch np} {pl : Pipeline tc} {os : OS}.

(** [slerp] between two tensors: the numeric body on their arrays, placed
    back on the first tensor's device. *)
Definition slerp_tensor (t : Q) (a b : tensor) : tensor :=
  from_numpy_to (slerp_numpy t (cpu_numpy a) (cpu_numpy b)) (tensor_device a).

Section Frames.

Variable scheduler : scheduler_choice.
Variable num_inference_steps : Z.
Variable guidance_scale : Q.

(** The image at interpolation parameter [t] between two anchors. *)
Definition render_frame (embeds_a embeds_b latents_a latents_b : tensor) (t : Q) : image :=
  pipeline_sample scheduler
    (TorchTensor (slerp_tensor t latents_a latents_b))
    (TorchTensor (slerp_tensor t embeds_a embeds_b))
    height width guidance_scale eta num_inference_steps.

(** The files of one prompt pair, numbered from [frame_index]. *)
Fixpoint render_steps (embeds_a embeds_b latents_a latents_b : tensor)
    (ts : list Q) (frame_index : Z) : list (string * image) :=
  match ts with
  | [] => []
  | t :: rest =>
      (frame_path frame_index, render_frame embeds_a embeds_b latents_a latents_b t)
      :: render_steps embeds_a embeds_b latents_a latents_b rest (frame_index + 1)
  end.

(** The files of a chain of prompt pairs, numbered from [frame_index]. *)
Fixpoint render_pairs (embeds_a latents_a : tensor) (pairs : list (string * Z))
    (ts : list Q) (frame_index : Z) : list (string * image) :=
  match pairs with
  | [] => []
  | (prompt, seed) :: rest =>
      let embeds_b := embed_text prompt in
      let latents_b := torch_randn pipeline_device seed in
      render_steps embeds_a embeds_b latents_a latents_b ts frame_index
      ++ render_pairs embeds_b latents_b rest ts (frame_index + Z.of_nat (List.length ts))
  end.

(** The frame files of a whole run over aligned prompts and seeds. *)
Definition rendered (num_steps : Z) (prompts : list string) (seeds : list Z)
  : list (string * image) :=
  match prompts, seeds with
  | first_prompt :: prompts, first_seed :: seeds =>
      render_pairs (embed_text first_prompt) (torch_randn pipeline_device first_seed)
        (combine prompts seeds) (linspace_samples 0 1 num_steps) 0
  | _, _ => []
  end.

End Frames.

(** The progress line printed while frame [frame_index] is produced. *)
Definition count_line (total frame_index : Z) : string :=
  ("COUNT: " ++ Py.str (frame_index + 1) ++ "/" ++ Py.str total)%string.

(** Frames that open a prompt pair, and frames whose 1-based number is a
    multiple of 20. *)
Definition progress_due (num_steps frame_index : Z) : bool :=
  (frame_index mod num_steps =? 0) || ((frame_index + 1) mod 20 =? 0).

(** The same test inside the pair that began at frame [start], where the
    step number is [frame_index - start]. *)
Definition progress_in_pair (start frame_index : Z) : bool :=
  (frame_index - start =? 0) || ((frame_index + 1) mod 20 =? 0).

(** The progress rule in the specification's words: the first step of the
    run and every 20th frame. *)
Definition progress_due_as_specified (frame_index : Z) : bool :=
  (frame_index =? 0) || ((frame_index + 1) mod 20 =? 0).

(** The line printed for one aligned prompt and seed. *)
Definition seed_line (pair : string * Z) : string :=
  (fst pair ++ ": " ++ Py.str (snd pair))%string.

(** The seeds [n] successive [os.urandom(2)] reads yield from position [c]. *)
Fixpoint drawn (c : nat) (n : nat) : list Z :=
  match n with
  | O => []
  | S k => Py.int_from_bytes_big [entropy c; entropy (S c)] :: drawn (S (S c)) k
  end.

End Expected.

(** A seed token that passes validation and conversion. *)
Definition acceptable_seed (int_max_str_digits : nat) (token : string) : bool :=
  Py.is_decimal_literal token
  && ((int_max_str_digits =? 0)%nat || (String.length token <=? int_max_str_digits)%nat).

Definition seed_tokens (seeds : string) : list string :=
  map Py.strip (Py.split "|" seeds).

Definition seeds_accepted (int_max_str_digits : nat) (seeds : option string) : bool :=
  match seeds with
  | None => true
  | Some s => forallb (acceptable_seed int_max_str_digits) (seed_tokens s)
  end.

(** The seeds that reach torch, the first one for each prompt, are seeds its
    generator accepts (a drawn seed always is). *)
Definition seeds_in_range (prompts : string) (seeds : option string) : bool :=
  match seeds with
  | None => true
  | Some s =>
      forallb manual_seed_ok
        (firstn (List.length (Py.split "|" prompts))
                (map (Py.decimal_value 0) (seed_tokens s)))
  end.

(** The exceptions by which a seed string is rejected. *)
Definition rejection (e : exn) : Prop :=
  e = AssertionError "Please provide integer seed." \/ exists msg, e = ValueError msg.

(** [ts] samples the closed unit interval at [num] evenly spaced points:
    [num] samples, the first 0, the last 1, a constant gap in between, all
    within the interval. *)
Definition samples_closed_unit_interval (num : Z) (ts : list Q) : Prop :=
  Z.of_nat (List.length ts) = num
  /\ (exists t0 rest, ts = t0 :: rest /\ t0 == 0)%Q
  /\ (exists front tn, ts = front ++ [tn] /\ tn == 1)%Q
  /\ (forall i, (S i < List.length ts)%nat ->
        nth (S i) ts 0 - nth i ts 0 == 1 / inject_Z (num - 1))%Q
  /\ (forall t, In t ts -> 0 <= t <= 1)%Q.

(** ** A dry environment

    Collaborators that return placeholders, an entropy source with a fixed
    pattern and an encoder with a chosen fate: enough to run the driver. *)

Module Dry.

Definition numpy : Numpy := {|
  ndarray := unit; npfloat := unit;
  np_mul := fun _ _ => tt; np_div := fun _ _ => tt; np_add := fun _ _ => tt;
  np_scale := fun _ _ => tt; py_scale := fun _ _ => tt;
  np_sum := fun _ => tt; np_linalg_norm := fun _ => tt; np_abs := fun _ => tt;
  np_arccos := fun _ => tt; np_sin := fun _ => tt;
  np_fmul := fun _ _ => tt; np_fsub := fun _ _ => tt; np_fdiv := fun _ _ => tt;
  np_fmul_py := fun _ _ => tt; np_gt_py := fun _ _ => false
|}.

Definition blank : unit * @ndarray numpy := (tt, tt).

Definition torch : Torch numpy := {|
  device := unit;
  torch_randn := fun _ _ => blank;
  torch_lerp := fun _ _ _ => blank
|}.

(** An image remembers the scheduler and step count it was sampled with. *)
Definition pipeline : Pipeline torch := {|
  image := scheduler_choice * Z;
  pipeline_device := (tt : @device _ torch);
  embed_text := fun _ => blank;
  pipeline_sample := fun s _ _ _ _ _ _ n => (s, n)
|}.

Definition byte_at (n : nat) : Byte.byte :=
  match Byte.of_N (N.of_nat ((37 * n + 11) mod 256)) with
  | Some b => b
  | None => Byte.x00
  end.

Definition os (fate : call_outcome) : OS := {|
  entropy := byte_at;
  subprocess_call := fun _ => fate
|}.

(** The world before a run: a stale frame is still in the frame directory. *)
Definition w0 : @world numpy torch pipeline :=
  mkWorld (pl := pipeline) O [] [("cog_out/frame000000.jpg", (default, 0))] [].

End Dry.

(** ** setup: the schedulers, lines 32-47, and the scheduler input, lines 61-65 *)

Inductive scheduler_class : Type :=
| PNDMScheduler | DDIMScheduler | LMSDiscreteScheduler.

(** A scheduler as it is constructed: its class and keyword arguments
    ([None]: the argument is not passed). *)
Record scheduler_object : Type := mkScheduler {
  scheduler_kind : scheduler_class;
  beta_start : Q;
  beta_end : Q;
  beta_schedule : string;
  clip_sample : option bool;
  set_alpha_to_one : option bool
}.

Definition default_scheduler : scheduler_object :=
  mkScheduler PNDMScheduler (85 # 100000) (12 # 1000) "scaled_linear" None None.

Definition ddim_scheduler : scheduler_object :=
  mkScheduler DDIMScheduler (85 # 100000) (12 # 1000) "scaled_linear"
    (Some false) (Some false).

Definition klms_scheduler : scheduler_object :=
  mkScheduler LMSDiscreteScheduler (85 # 100000) (12 # 1000) "scaled_linear" None None.

(** [self.SCHEDULERS] *)
Definition SCHEDULERS : list (string * scheduler_object) :=
  [("default", default_scheduler); ("ddim", ddim_scheduler); ("klms", klms_scheduler)].

(** [d[key]] on a dict with string keys; [None] stands for [KeyError]. *)
Definition dict_getitem {V : Type} (d : list (string * V)) (key : string) : option V :=
  option_map snd (find (fun kv => String.eqb (fst kv) key) d).

(** [choices] and [default] of the [scheduler] input *)
Definition scheduler_input_choices : list string := ["default"; "ddim"; "klms"].
Definition scheduler_input_default : string := "klms".

(** * Properties *)

Unset Implicit Arguments.

(** ** Python string primitives *)

Example split_keeps_empty_entries :
  Py.split "|" "a cat | a dog ||" = ["a cat "; " a dog "; ""; ""].
Proof. reflexivity. Qed.

Example strip_both_sides : Py.strip "  a dog	 " = "a dog".
Proof. reflexivity. Qed.

Example isdigit_superscript_two :
  Py.isdigit (String (ascii_of_nat 178) EmptyString) = true
  /\ Py.is_decimal_literal (String (ascii_of_nat 178) EmptyString) = false.
Proof. split; reflexivity. Qed.

Example fmt_06d_examples :
  Py.fmt_06d 0 = "000000" /\ Py.fmt_06d 149 = "000149"
  /\ Py.fmt_06d 1234567 = "1234567" /\ Py.str 15 = "15".
Proof. repeat split; reflexivity. Qed.

(** ** Lists and ranges *)

Lemma zrange_length (a : Z) (n : nat) : List.length (zrange a n) = n.
Proof. revert a; induction n as [|n IH]; intros a; simpl; [reflexivity | now rewrite IH]. Qed.

Lemma zrange_snoc (a : Z) (n : nat) :
  zrange a (S n) = zrange a n ++ [a + Z.of_nat n].
Proof.
  revert a; induction n as [|n IH]; intros a.
  - simpl. now rewrite Z.add_0_r.
  - change (zrange a (S (S n))) with (a :: zrange (a + 1) (S n)).
    rewrite IH. simpl zrange. simpl app.
    replace (a + 1 + Z.of_nat n) with (a + Z.of_nat (S n)) by lia. reflexivity.
Qed.

Lemma zrange_app (a : Z) (n m : nat) :
  zrange a (n + m) = zrange a n ++ zrange (a + Z.of_nat n) m.
Proof.
  revert a; induction n as [|n IH]; intros a.
  - simpl. now rewrite Z.add_0_r.
  - simpl plus. simpl zrange. rewrite IH. simpl app.
    replace (a + 1 + Z.of_nat n) with (a + Z.of_nat (S n)) by lia. reflexivity.
Qed.

Lemma zrange_nth (a : Z) (n i : nat) (d : Z) :
  (i < n)%nat -> nth i (zrange a n) d = a + Z.of_nat i.
Proof.
  revert a i; induction n as [|n IH]; intros a i Hi; [lia|].
  destruct i as [|i]; simpl.
  - lia.
  - rewrite IH by lia. lia.
Qed.

Lemma zrange_In (a : Z) (n : nat) (x : Z) :
  In x (zrange a n) <-> a <= x < a + Z.of_nat n.
Proof.
  revert a; induction n as [|n IH]; intros a; simpl.
  - lia.
  - rewrite IH. lia.
Qed.

Lemma set_last_snoc {A : Type} (l : list A) (a x : A) :
  set_last (l ++ [a]) x = l ++ [x].
Proof.
  induction l as [|b l IH]; [reflexivity|].
  simpl app. simpl set_last. rewrite IH.
  destruct l; reflexivity.
Qed.

Lemma enumerate_from_length {A : Type} (i : Z) (l : list A) :
  List.length (enumerate_from i l) = List.length l.
Proof. revert i; induction l as [|a l IH]; intros i; simpl; [reflexivity | now rewrite IH]. Qed.

(** ** numpy.linspace *)

Lemma linspace_samples_length (start stop : Q) (num : Z) :
  List.length (linspace_samples start stop num) = Z.to_nat num.
Proof.
  unfold linspace_samples.
  assert (L : forall (l : list Q) x, List.length (set_last l x) = List.length l).
  { induction l as [|b l IH]; intros x; [reflexivity|].
    destruct l as [|c l]; [reflexivity|].
    change (set_last (b :: c :: l) x) with (b :: set_last (c :: l) x).
    cbn [List.length]. now rewrite IH. }
  destruct (1 <? num), (0 <? num - 1);
    rewrite ?L, !length_map, zrange_length; reflexivity.
Qed.

Lemma linspace_nonneg (num : Z) :
  0 <= num -> linspace 0 1 num = Ok (linspace_samples 0 1 num).
Proof.
  intros H. unfold linspace.
  destruct (num <? 0) eqn:E; [apply Z.ltb_lt in E; lia | reflexivity].
Qed.

(** From two samples on, the samples are the grid points but the last,
    followed by the stop value. *)
Lemma linspace_samples_grid (num : Z) :
  2 <= num ->
  linspace_samples 0 1 num
  = map (fun k => inject_Z k * ((1 - 0) / inject_Z (num - 1)) + 0)%Q
        (zrange 0 (Z.to_nat num - 1)) ++ [1%Q].
Proof.
  intros H. unfold linspace_samples.
  destruct (0 <? num - 1) eqn:E1; [|apply Z.ltb_ge in E1; lia].
  destruct (1 <? num) eqn:E2; [|apply Z.ltb_ge in E2; lia].
  replace (Z.to_nat num) with (S (Z.to_nat num - 1)) at 1 by lia.
  rewrite zrange_snoc, !map_app. cbn [map].
  rewrite set_last_snoc. now rewrite !map_map.
Qed.

Lemma linspace_closed_form (num : Z) (i : nat) :
  2 <= num -> (i < Z.to_nat num)%nat ->
  (nth i (linspace_samples 0 1 num) 0 == inject_Z (Z.of_nat i) / inject_Z (num - 1))%Q.
Proof.
  intros H Hi. rewrite linspace_samples_grid by assumption.
  assert (D : ~ (inject_Z (num - 1) == 0)%Q).
  { unfold Qeq; simpl. lia. }
  destruct (Nat.eq_dec i (Z.to_nat num - 1)) as [->|Hne].
  - rewrite app_nth2; rewrite length_map, zrange_length; [|lia].
    rewrite Nat.sub_diag. simpl nth.
    replace (Z.of_nat (Z.to_nat num - 1)) with (num - 1) by lia.
    now field.
  - rewrite app_nth1 by (rewrite length_map, zrange_length; lia).
    set (g := (fun k => inject_Z k * ((1 - 0) / inject_Z (num - 1)) + 0)%Q).
    rewrite (nth_indep _ 0%Q (g 0)) by (rewrite length_map, zrange_length; lia).
    rewrite map_nth. unfold g.
    rewrite zrange_nth by lia. rewrite Z.add_0_l.
    now field.
Qed.

(** From two samples on, [np.linspace(0, 1, num)] yields exactly [num]
    samples, the first 0 and the last 1, with the constant gap
    [1 / (num - 1)], all inside the closed unit interval. *)
Lemma linspace_two_or_more (num_steps : Z) :
  2 <= num_steps ->
  exists ts, linspace 0 1 num_steps = Ok ts
             /\ samples_closed_unit_interval num_steps ts.
Proof.
  intros H. exists (linspace_samples 0 1 num_steps).
  split; [apply linspace_nonneg; lia|].
  assert (D : ~ (inject_Z (num_steps - 1) == 0)%Q) by (unfold Qeq; simpl; lia).
  pose proof (linspace_samples_length 0 1 num_steps) as L.
  pose proof (linspace_samples_grid num_steps H) as G.
  repeat split.
  - rewrite L. lia.
  - rewrite G. destruct (Z.to_nat num_steps - 1)%nat as [|m] eqn:E; [lia|].
    simpl. eexists _, _. split; [reflexivity|]. now field.
  - rewrite G. eexists _, _. split; [reflexivity|]. reflexivity.
  - intros i Hi. rewrite L in Hi.
    rewrite !linspace_closed_form by (assumption || lia).
    rewrite Nat2Z.inj_succ. unfold Z.succ. rewrite inject_Z_plus. now field.
  - destruct (In_nth _ _ 0%Q H0) as (i & Hi & <-). rewrite L in Hi.
    rewrite linspace_closed_form by (assumption || lia).
    apply Qle_shift_div_l; [unfold Qlt; simpl; lia|].
    rewrite Qmult_0_l. rewrite <- (Zle_Qle 0). lia.
  - destruct (In_nth _ _ 0%Q H0) as (i & Hi & <-). rewrite L in Hi.
    rewrite linspace_closed_form by (assumption || lia).
    apply Qle_shift_div_r; [unfold Qlt; simpl; lia|].
    rewrite Qmult_1_l. rewrite <- Zle_Qle. lia.
Qed.

(** With a single step the only sample is 0: the last sample is not 1. *)
Lemma linspace_single_step_misses_one :
  ~ exists ts, linspace 0 1 1 = Ok ts /\ samples_closed_unit_interval 1 ts.
Proof.
  intros (ts & E & _ & _ & (front & tn & F & Htn) & _).
  cbv in E. injection E as <-.
  destruct front as [|a [|b front]]; try discriminate F.
  injection F as <-. cbv in Htn. discriminate Htn.
Qed.

Example linspace_five_steps :
  linspace 0 1 5 = Ok (map (fun p => p * ((1 - 0) / 4) + 0)%Q [0; 1; 2; 3]%Q ++ [1%Q]).
Proof. reflexivity. Qed.

(** ** slerp *)

Section SlerpFacts.

Context {np : Numpy} {tc : Torch np}.

(** On tensors [slerp] returns: the numeric body runs on the arrays and the
    result is placed on the first tensor's device. *)
Lemma slerp_tensors (t : Q) (a b : tensor) :
  slerp t (Tensors a b) = Ok (TorchTensor (slerp_tensor t a b)).
Proof. reflexivity. Qed.

(** The fallback of the numeric body: above the threshold the result is the
    linear interpolation. *)
Lemma slerp_numpy_fallback (t : Q) (v0 v1 : ndarray) :
  np_gt_py
    (np_abs (np_sum (np_div (np_mul v0 v1)
                            (np_fmul (np_linalg_norm v0) (np_linalg_norm v1)))))
    DOT_THRESHOLD = true ->
  slerp_numpy t v0 v1 = np_add (py_scale (1 - t)%Q v0) (py_scale t v1).
Proof. intros H. unfold slerp_numpy. now rewrite H. Qed.

(** On tensors the fallback is returned as a tensor on the first device. *)
Lemma slerp_tensors_fallback (t : Q) (a b : tensor) :
  np_gt_py
    (np_abs (np_sum (np_div (np_mul (cpu_numpy a) (cpu_numpy b))
                            (np_fmul (np_linalg_norm (cpu_numpy a))
                                     (np_linalg_norm (cpu_numpy b))))))
    DOT_THRESHOLD = true ->
  slerp t (Tensors a b)
  = Ok (TorchTensor
          (from_numpy_to
             (np_add (py_scale (1 - t)%Q (cpu_numpy a)) (py_scale t (cpu_numpy b)))
             (tensor_device a))).
Proof.
  intros H. rewrite slerp_tensors. unfold slerp_tensor.
  now rewrite (slerp_numpy_fallback t _ _ H).
Qed.

(** C3: on numpy arrays the call does not return the interpolation, equal
    vectors included: the result is computed and the call then raises
    [UnboundLocalError]. *)
Theorem slerp_arrays_fallback_raises (t : Q) (v0 v1 : ndarray) :
  slerp t (Arrays v0 v1) = Raise (UnboundLocalError "inputs_are_torch")
  /\ slerp t (Arrays v0 v0) = Raise (UnboundLocalError "inputs_are_torch").
Proof. split; reflexivity. Qed.

(** C4: given arrays [slerp] raises [UnboundLocalError] instead of returning
    an array; given tensors it returns a tensor on the device of the first
    one. *)
Theorem slerp_representation (t : Q) (v0 v1 : ndarray) (a b : tensor) :
  slerp t (Arrays v0 v1) = Raise (UnboundLocalError "inputs_are_torch")
  /\ exists v2, slerp t (Tensors a b) = Ok (TorchTensor (from_numpy_to v2 (tensor_device a))).
Proof. split; [reflexivity | eexists; reflexivity]. Qed.

(** C6: at both endpoints [slerp] on numpy arrays raises
    [UnboundLocalError]; it returns neither [v0] nor [v1]. *)
Theorem slerp_arrays_endpoints_raise (v0 v1 : ndarray) :
  slerp 0 (Arrays v0 v1) = Raise (UnboundLocalError "inputs_are_torch")
  /\ slerp 1 (Arrays v0 v1) = Raise (UnboundLocalError "inputs_are_torch").
Proof. split; reflexivity. Qed.

End SlerpFacts.

(** ** run_cmd *)

Section RunCmdFacts.

Context {np : Numpy} {tc : Torch np} {pl : Pipeline tc} {os : OS}.

(** Whatever exit status the shell reports, [run_cmd] returns normally. *)
Lemma run_cmd_returned (command : string) (status : Z) (w : world) :
  subprocess_call command = Returned status ->
  run_cmd command w
  = (Ok tt, mkWorld (urandom_read w) (stdout w) (cog_out w) (shell_log w ++ [command])).
Proof. intros H. unfold run_cmd, bind, call. rewrite H. reflexivity. Qed.

(** C9: [sys] is not bound in the module, so the handler of a keyboard
    interrupt prints its message and then raises [NameError] instead of
    exiting with status 1. *)
Theorem run_cmd_interrupt_name_error (command : string) (w : world) :
  subprocess_call command = KeyboardInterrupt ->
  run_cmd command w
  = (Raise (NameError "sys"),
     mkWorld (urandom_read w) (stdout w ++ ["Process interrupted"]) (cog_out w)
       (shell_log w ++ [command])).
Proof. intros H. unfold run_cmd, bind, call. rewrite H. reflexivity. Qed.

End RunCmdFacts.

Lemma run_cmd_interrupt_name_error_witness :
  @subprocess_call (Dry.os KeyboardInterrupt) "ffmpeg" = KeyboardInterrupt
  /\ @run_cmd _ _ Dry.pipeline (Dry.os KeyboardInterrupt) "ffmpeg" Dry.w0
     = (Raise (NameError "sys"),
        mkWorld O ["Process interrupted"] (cog_out Dry.w0) ["ffmpeg"]).
Proof.
  split; [reflexivity|].
  apply (@run_cmd_interrupt_name_error _ _ Dry.pipeline (Dry.os KeyboardInterrupt)
           "ffmpeg" Dry.w0).
  reflexivity.
Defined.

(** ** Prompt/seed preparation *)

Section PrepareFacts.

Context {np : Numpy} {tc : Torch np} {pl : Pipeline tc} {os : OS}.

Variable int_max_str_digits : nat.

Lemma bind_ok {A B : Type} (m : M A) (k : A -> M B) (w w' : world) (a : A) :
  m w = (Ok a, w') -> bind m k w = k a w'.
Proof. intros H. unfold bind. now rewrite H. Qed.

Lemma bind_raise {A B : Type} (m : M A) (k : A -> M B) (w w' : world) (e : exn) :
  m w = (Raise e, w') -> bind m k w = (Raise e, w').
Proof. intros H. unfold bind. now rewrite H. Qed.

Lemma split_nonempty (sep : ascii) (s : string) : Py.split sep s <> [].
Proof.
  destruct s as [|c r]; simpl; [discriminate|].
  destruct (Ascii.eqb c sep); [discriminate|].
  destruct (Py.split sep r); discriminate.
Qed.

(** Splitting drops no entry: one more piece than there are separators. *)
Lemma split_length (sep : ascii) (s : string) :
  List.length (Py.split sep s) = S (Py.count sep s).
Proof.
  induction s as [|c r IH]; [reflexivity|].
  cbn [Py.split Py.count]. pose proof (split_nonempty sep r) as Hne.
  destruct (Ascii.eqb c sep).
  - cbn [List.length]. now rewrite IH.
  - destruct (Py.split sep r) as [|h t]; [contradiction|]. exact IH.
Qed.

Lemma drawn_length (c n : nat) : List.length (drawn c n) = n.
Proof. revert c; induction n as [|n IH]; intros c; simpl; [reflexivity | now rewrite IH]. Qed.

Lemma draw_each_run {A : Type} (l : list A) (w : world) :
  mapM (fun _ => bind (os_urandom 2) (fun bs => ret (Py.int_from_bytes_big bs))) l w
  = (Ok (drawn (urandom_read w) (List.length l)),
     mkWorld (urandom_read w + 2 * List.length l) (stdout w) (cog_out w) (shell_log w)).
Proof.
  revert w; induction l as [|x l IH]; intros w.
  - simpl. unfold ret. destruct w; simpl. now rewrite Nat.add_0_r.
  - cbn [mapM List.length drawn].
    unfold bind at 1. unfold bind at 1. unfold os_urandom at 1. cbn [seq map].
    unfold ret at 1.
    unfold bind at 1. rewrite IH. cbn.
    unfold ret.
    replace (urandom_read w + 2)%nat with (S (S (urandom_read w))) by lia.
    f_equal. f_equal. lia.
Qed.

Lemma random_seeds_run (n : nat) (w : world) :
  random_seeds n w
  = (Ok (drawn (urandom_read w) n),
     mkWorld (urandom_read w + 2 * n) (stdout w) (cog_out w) (shell_log w)).
Proof. unfold random_seeds. rewrite draw_each_run, length_seq. reflexivity. Qed.

Lemma decimal_char_is_digit_char (s : string) :
  Py.forallb_str Py.isdecimal_char s = true -> Py.forallb_str Py.isdigit_char s = true.
Proof.
  induction s as [|c r IH]; simpl; [reflexivity|].
  intros H. apply andb_true_iff in H as [H1 H2].
  unfold Py.isdigit_char. rewrite H1. simpl. now apply IH.
Qed.

Lemma decimal_literal_isdigit (s : string) :
  Py.is_decimal_literal s = true -> Py.isdigit s = true.
Proof.
  destruct s as [|c r]; [discriminate|].
  unfold Py.is_decimal_literal, Py.isdigit. apply decimal_char_is_digit_char.
Qed.

Lemma acceptable_seed_int (token : string) :
  acceptable_seed int_max_str_digits token = true ->
  Py.isdigit token = true
  /\ Py.int int_max_str_digits token = Ok (Py.decimal_value 0 token).
Proof.
  unfold acceptable_seed. intros H. apply andb_true_iff in H as [H1 H2].
  split; [now apply decimal_literal_isdigit|].
  unfold Py.int. rewrite H1. cbn [negb].
  destruct (int_max_str_digits =? 0)%nat eqn:E0; cbn [negb andb]; [reflexivity|].
  cbn [orb] in H2. apply Nat.leb_le in H2.
  destruct (int_max_str_digits <? String.length token)%nat eqn:E1;
    [apply Nat.ltb_lt in E1; lia | reflexivity].
Qed.

Lemma unacceptable_seed_int (token : string) :
  acceptable_seed int_max_str_digits token = false ->
  exists msg, Py.int int_max_str_digits token = Raise (ValueError msg).
Proof.
  unfold acceptable_seed, Py.int. intros H.
  destruct (Py.is_decimal_literal token); cbn [negb andb] in *; [|eexists; reflexivity].
  destruct (int_max_str_digits =? 0)%nat; cbn [negb andb orb] in *; [discriminate|].
  apply Nat.leb_gt in H. apply Nat.ltb_lt in H. rewrite H. eexists; reflexivity.
Qed.

Lemma assert_all_isdigit_run (tokens : list string) (w : world) :
  assert_all_isdigit tokens w
  = if forallb Py.isdigit tokens then (Ok tt, w)
    else (Raise (AssertionError "Please provide integer seed."), w).
Proof.
  induction tokens as [|s r IH]; [reflexivity|].
  cbn [assert_all_isdigit forallb]. destruct (Py.isdigit s); [exact IH | reflexivity].
Qed.

Lemma convert_accepted (tokens : list string) (w : world) :
  forallb (acceptable_seed int_max_str_digits) tokens = true ->
  mapM (fun s => lift (Py.int int_max_str_digits s)) tokens w
  = (Ok (map (Py.decimal_value 0) tokens), w).
Proof.
  induction tokens as [|s r IH]; intros H; [reflexivity|].
  cbn [forallb] in H. apply andb_true_iff in H as [H1 H2].
  cbn [mapM map]. unfold bind at 1. unfold lift at 1.
  destruct (acceptable_seed_int s H1) as [_ ->].
  unfold bind at 1. rewrite (IH H2). reflexivity.
Qed.

Lemma convert_rejected (tokens : list string) (w : world) :
  forallb (acceptable_seed int_max_str_digits) tokens = false ->
  exists msg,
    mapM (fun s => lift (Py.int int_max_str_digits s)) tokens w = (Raise (ValueError msg), w).
Proof.
  induction tokens as [|s r IH]; intros H; [discriminate|].
  cbn [forallb] in H. cbn [mapM]. unfold bind at 1. unfold lift at 1.
  destruct (acceptable_seed int_max_str_digits s) eqn:E.
  - destruct (acceptable_seed_int s E) as [_ ->].
    cbn [andb] in H. destruct (IH H) as [msg Hm].
    exists msg. unfold bind at 1. now rewrite Hm.
  - destruct (unacceptable_seed_int s E) as [msg ->]. now exists msg.
Qed.

Lemma accepted_tokens_isdigit (tokens : list string) :
  forallb (acceptable_seed int_max_str_digits) tokens = true ->
  forallb Py.isdigit tokens = true.
Proof.
  induction tokens as [|s r IH]; [reflexivity|].
  cbn [forallb]. intros H. apply andb_true_iff in H as [H1 H2].
  destruct (acceptable_seed_int s H1) as [-> _]. now apply IH.
Qed.

(** The outcome of the preparation on an accepted seed string. *)
Lemma prepare_given (prompts seeds : string) (w : world) :
  forallb (acceptable_seed int_max_str_digits) (seed_tokens seeds) = true ->
  prepare int_max_str_digits prompts (Some seeds) w
  = let ps := map Py.strip (Py.split "|" prompts) in
    let given := map (Py.decimal_value 0) (seed_tokens seeds) in
    if (List.length ps <? List.length given)%nat
    then (Ok (ps, firstn (List.length ps) given), w)
    else (Ok (ps, given ++ drawn (urandom_read w) (List.length ps - List.length given)),
          mkWorld (urandom_read w + 2 * (List.length ps - List.length given))
            (stdout w ++ ["Setting Random seeds."]) (cog_out w) (shell_log w)).
Proof.
  intros H. unfold prepare. fold (seed_tokens seeds).
  rewrite (bind_ok _ _ w w tt)
    by (rewrite assert_all_isdigit_run, (accepted_tokens_isdigit _ H); reflexivity).
  rewrite (bind_ok _ _ w w _ (convert_accepted _ w H)).
  cbv zeta. rewrite !length_map.
  destruct (_ <? _)%nat; [reflexivity|].
  unfold bind at 1. unfold print at 1.
  unfold bind at 1. rewrite random_seeds_run. reflexivity.
Qed.

Lemma prepare_random (prompts : string) (w : world) :
  prepare int_max_str_digits prompts None w
  = let ps := map Py.strip (Py.split "|" prompts) in
    (Ok (ps, drawn (urandom_read w) (List.length ps)),
     mkWorld (urandom_read w + 2 * List.length ps)
       (stdout w ++ ["Setting Random seeds."]) (cog_out w) (shell_log w)).
Proof.
  unfold prepare. unfold bind at 1. unfold print at 1.
  unfold bind at 1. rewrite random_seeds_run. reflexivity.
Qed.

(** C1: on a seed string whose tokens are all valid, the aligned prompt and
    seed sequences both have the length P of the prompt sequence; with
    S >= P given seeds the first P are kept in order, with S < P the S given
    seeds are kept in order and P - S drawn seeds follow them. *)
Theorem prepare_alignment (prompts seeds : string) (w : world) :
  forallb (acceptable_seed int_max_str_digits) (seed_tokens seeds) = true ->
  exists aligned_prompts aligned_seeds w',
    prepare int_max_str_digits prompts (Some seeds) w
    = (Ok (aligned_prompts, aligned_seeds), w')
    /\ aligned_prompts = map Py.strip (Py.split "|" prompts)
    /\ List.length aligned_prompts = List.length (Py.split "|" prompts)
    /\ List.length aligned_seeds = List.length (Py.split "|" prompts)
    /\ ((List.length (Py.split "|" prompts) <= List.length (seed_tokens seeds))%nat ->
        aligned_seeds
        = firstn (List.length (Py.split "|" prompts))
            (map (Py.decimal_value 0) (seed_tokens seeds)))
    /\ ((List.length (seed_tokens seeds) < List.length (Py.split "|" prompts))%nat ->
        exists generated,
          aligned_seeds = map (Py.decimal_value 0) (seed_tokens seeds) ++ generated
          /\ List.length generated
             = (List.length (Py.split "|" prompts) - List.length (seed_tokens seeds))%nat
          /\ generated = drawn (urandom_read w) (List.length generated)).
Proof.
  intros H. rewrite (prepare_given prompts seeds w H). cbv zeta.
  rewrite !length_map.
  set (P := List.length (Py.split "|" prompts)).
  set (given := map (Py.decimal_value 0) (seed_tokens seeds)).
  assert (LG : List.length given = List.length (seed_tokens seeds)) by apply length_map.
  rewrite <- LG.
  destruct (P <? List.length given)%nat eqn:E.
  - apply Nat.ltb_lt in E. eexists _, _, _. split; [reflexivity|].
    split; [reflexivity|]. rewrite length_map, length_firstn. fold P.
    split; [reflexivity|]. split; [lia|]. split; [reflexivity|].
    intros HP. exfalso. lia.
  - apply Nat.ltb_ge in E. eexists _, _, _. split; [reflexivity|].
    split; [reflexivity|]. rewrite length_map, length_app, drawn_length. fold P.
    split; [reflexivity|]. split; [lia|]. split.
    + intros HP. assert (P = List.length given) as -> by lia.
      rewrite Nat.sub_diag, firstn_all. simpl. now rewrite app_nil_r.
    + intros HP. eexists. split; [reflexivity|].
      rewrite drawn_length. split; reflexivity.
Qed.

End PrepareFacts.

Lemma prepare_alignment_witness :
  forallb (acceptable_seed 4300) (seed_tokens "42 | 007") = true
  /\ exists aligned_prompts aligned_seeds w',
    @prepare _ _ Dry.pipeline (Dry.os (Returned 0)) 4300
      "a cat | a dog | a horse" (Some "42 | 007") Dry.w0
    = (Ok (aligned_prompts, aligned_seeds), w')
    /\ aligned_prompts = map Py.strip (Py.split "|" "a cat | a dog | a horse")
    /\ List.length aligned_prompts = List.length (Py.split "|" "a cat | a dog | a horse")
    /\ List.length aligned_seeds = List.length (Py.split "|" "a cat | a dog | a horse")
    /\ ((List.length (Py.split "|" "a cat | a dog | a horse")
         <= List.length (seed_tokens "42 | 007"))%nat ->
        aligned_seeds
        = firstn (List.length (Py.split "|" "a cat | a dog | a horse"))
            (map (Py.decimal_value 0) (seed_tokens "42 | 007")))
    /\ ((List.length (seed_tokens "42 | 007")
         < List.length (Py.split "|" "a cat | a dog | a horse"))%nat ->
        exists generated,
          aligned_seeds = map (Py.decimal_value 0) (seed_tokens "42 | 007") ++ generated
          /\ List.length generated
             = (List.length (Py.split "|" "a cat | a dog | a horse")
                - List.length (seed_tokens "42 | 007"))%nat
          /\ generated = drawn (os := Dry.os (Returned 0)) (urandom_read Dry.w0)
                           (List.length generated)).
Proof.
  split; [reflexivity|].
  apply (@prepare_alignment _ _ Dry.pipeline (Dry.os (Returned 0)) 4300
           "a cat | a dog | a horse" "42 | 007" Dry.w0).
  reflexivity.
Defined.

Example prepare_fills_the_gap :
  fst (@prepare _ _ Dry.pipeline (Dry.os (Returned 0)) 4300
         "a cat | a dog | a horse" (Some "42 | 007") Dry.w0)
  = Ok (["a cat"; "a dog"; "a horse"], [42; 7; 2864]).
Proof. reflexivity. Qed.

Example prepare_truncates :
  @prepare _ _ Dry.pipeline (Dry.os (Returned 0)) 4300 "a|b" (Some "1|2|3") Dry.w0
  = (Ok (["a"; "b"], [1; 2]), Dry.w0).
Proof. reflexivity. Qed.

(** ** Interpolation driver *)

Section DriverFacts.

Context {np : Numpy} {tc : Torch np} {pl : Pipeline tc} {os : OS}.

Variable scheduler : scheduler_choice.
Variable num_inference_steps : Z.
Variable guidance_scale : Q.
Variable num_steps : Z.

Lemma render_steps_paths (embeds_a embeds_b latents_a latents_b : tensor)
    (ts : list Q) (f : Z) :
  map fst (render_steps scheduler num_inference_steps guidance_scale
             embeds_a embeds_b latents_a latents_b ts f)
  = map frame_path (zrange f (List.length ts)).
Proof.
  revert f; induction ts as [|t ts IH]; intros f; [reflexivity|].
  cbn [render_steps map fst List.length zrange]. now rewrite IH.
Qed.

Lemma render_pairs_paths (embeds_a latents_a : tensor) (pairs : list (string * Z))
    (ts : list Q) (f : Z) :
  map fst (render_pairs scheduler num_inference_steps guidance_scale
             embeds_a latents_a pairs ts f)
  = map frame_path (zrange f (List.length pairs * List.length ts)).
Proof.
  revert embeds_a latents_a f; induction pairs as [|[p s] pairs IH];
    intros embeds_a latents_a f; [reflexivity|].
  cbn [render_pairs List.length]. rewrite map_app, render_steps_paths, IH.
  cbn [Nat.mul]. now rewrite zrange_app, map_app.
Qed.

(** One prompt pair: every step saves one frame under the next index, and a
    progress line is printed on the steps [progress_in_pair] selects. *)
Lemma steps_loop_run (total : Z) (embeds_a embeds_b latents_a latents_b : tensor)
    (ts : list Q) (i f : Z) (w : world) :
  steps_loop scheduler num_inference_steps guidance_scale total
    embeds_a embeds_b latents_a latents_b (enumerate_from i ts) f w
  = (Ok (f + Z.of_nat (List.length ts)),
     mkWorld (urandom_read w)
       (stdout w ++ map (count_line total)
                      (filter (progress_in_pair (f - i)) (zrange f (List.length ts))))
       (cog_out w ++ render_steps scheduler num_inference_steps guidance_scale
                       embeds_a embeds_b latents_a latents_b ts f)
       (shell_log w)).
Proof.
  revert i f w; induction ts as [|t ts IH]; intros i f w.
  - cbn. unfold ret. destruct w; cbn. now rewrite Z.add_0_r, !app_nil_r.
  - cbn [enumerate_from steps_loop List.length zrange filter render_steps].
    unfold progress_in_pair at 1. replace (f - (f - i)) with i by lia.
    unfold bind at 1.
    destruct ((i =? 0) || ((f + 1) mod 20 =? 0)).
    + unfold print at 1. cbn [use_lerp_for_text].
      unfold bind at 1. unfold lift at 1. rewrite slerp_tensors.
      unfold bind at 1. unfold lift at 1. rewrite slerp_tensors.
      unfold bind at 1. unfold save at 1.
      rewrite IH. cbn [urandom_read stdout cog_out shell_log map].
      replace (f + 1 - (i + 1)) with (f - i) by lia.
      fold (count_line total f). unfold render_frame.
      rewrite <- !app_assoc. cbn [app].
      f_equal. f_equal. lia.
    + unfold ret at 1. cbn [use_lerp_for_text].
      unfold bind at 1. unfold lift at 1. rewrite slerp_tensors.
      unfold bind at 1. unfold lift at 1. rewrite slerp_tensors.
      unfold bind at 1. unfold save at 1.
      rewrite IH. cbn [urandom_read stdout cog_out shell_log map].
      replace (f + 1 - (i + 1)) with (f - i) by lia.
      unfold render_frame.
      rewrite <- !app_assoc. cbn [app].
      f_equal. f_equal. lia.
Qed.

(** Inside the pair that begins at a multiple of [num_steps], the first step
    is the frame whose index is a multiple of [num_steps]. *)
Lemma progress_in_pair_due (start x : Z) :
  start mod num_steps = 0 -> start <= x < start + num_steps ->
  progress_in_pair start x = progress_due num_steps x.
Proof.
  intros Hs Hx. unfold progress_in_pair, progress_due. f_equal.
  assert (K : 0 < num_steps) by lia.
  assert (E : x mod num_steps = x - start).
  { apply Z.mod_divide in Hs; [|lia]. destruct Hs as [q ->].
    replace x with ((x - q * num_steps) + q * num_steps) at 1 by lia.
    rewrite Z.mod_add by lia. apply Z.mod_small. lia. }
  now rewrite E.
Qed.

Lemma combine_seeds_ok (ps : list string) (ss : list Z) :
  Forall (fun seed => manual_seed_ok seed = true) ss ->
  Forall (fun pair : string * Z => manual_seed_ok (snd pair) = true) (combine ps ss).
Proof.
  intros H. apply Forall_forall. intros [p s] Hin.
  apply in_combine_r in Hin. rewrite Forall_forall in H. now apply H.
Qed.

Lemma seeded_randn_ok (d : device) (seed : Z) :
  manual_seed_ok seed = true -> seeded_randn d seed = Ok (torch_randn d seed).
Proof. intros H. unfold seeded_randn. now rewrite H. Qed.

(** The chain of prompt pairs, entered at a frame index that is a multiple
    of [num_steps], when torch accepts every seed. *)
Lemma pairs_loop_run (total : Z) (embeds_a latents_a : tensor)
    (pairs : list (string * Z)) (f : Z) (w : world) :
  Forall (fun pair => manual_seed_ok (snd pair) = true) pairs ->
  0 <= num_steps -> f mod num_steps = 0 ->
  pairs_loop scheduler num_inference_steps guidance_scale num_steps total
    embeds_a latents_a pairs f w
  = (Ok (f + Z.of_nat (List.length pairs) * num_steps),
     mkWorld (urandom_read w)
       (stdout w ++ map (count_line total)
                      (filter (progress_due num_steps)
                         (zrange f (List.length pairs * Z.to_nat num_steps))))
       (cog_out w ++ render_pairs scheduler num_inference_steps guidance_scale
                       embeds_a latents_a pairs (linspace_samples 0 1 num_steps) f)
       (shell_log w)).
Proof.
  intros HR HK. revert embeds_a latents_a f w.
  induction pairs as [|[p s] pairs IH]; intros embeds_a latents_a f w Hf.
  - cbn. unfold ret. destruct w; cbn. rewrite !app_nil_r. f_equal. f_equal. lia.
  - apply Forall_cons_iff in HR as [Hs HR]. cbn [snd] in Hs. specialize (IH HR).
    cbn [pairs_loop List.length render_pairs].
    unfold bind at 1. unfold lift at 1. rewrite (seeded_randn_ok _ _ Hs).
    unfold bind at 1. unfold lift at 1. rewrite (linspace_nonneg num_steps HK).
    unfold bind at 1. unfold enumerate. rewrite steps_loop_run.
    rewrite linspace_samples_length, Z.sub_0_r.
    assert (Hf' : (f + Z.of_nat (Z.to_nat num_steps)) mod num_steps = 0).
    { rewrite Z2Nat.id by assumption.
      destruct (Z.eq_dec num_steps 0) as [->|Hne].
      - now rewrite Z.add_0_r.
      - rewrite <- (Z.mul_1_l num_steps) at 1. rewrite Z.mod_add by assumption.
        assumption. }
    rewrite (IH _ _ _ _ Hf'). cbn [urandom_read stdout cog_out shell_log].
    cbn [Nat.mul]. rewrite zrange_app, filter_app, map_app, <- !app_assoc.
    rewrite (filter_ext_in (progress_in_pair f) (progress_due num_steps)).
    + f_equal. f_equal. rewrite Nat2Z.inj_succ, Z2Nat.id by assumption. lia.
    + intros x Hx. apply zrange_In in Hx. apply progress_in_pair_due; lia.
Qed.

(** The driver on aligned lists: the frame counter ends at the number of
    frames, the frames are those of [rendered], and the progress lines are
    those [progress_due] selects. *)
Lemma interpolate_run (p : string) (ps : list string) (s : Z) (ss : list Z) (w : world) :
  List.length ps = List.length ss ->
  Forall (fun seed => manual_seed_ok seed = true) (s :: ss) ->
  0 <= num_steps ->
  interpolate scheduler num_inference_steps guidance_scale num_steps (p :: ps) (s :: ss) w
  = (Ok (Z.of_nat (List.length ps) * num_steps),
     mkWorld (urandom_read w)
       (stdout w ++ map (count_line (Z.of_nat (List.length ps) * num_steps))
                      (filter (progress_due num_steps)
                         (zrange 0 (List.length ps * Z.to_nat num_steps))))
       (cog_out w ++ rendered scheduler num_inference_steps guidance_scale num_steps
                       (p :: ps) (s :: ss))
       (shell_log w)).
Proof.
  intros HL HR HK. apply Forall_cons_iff in HR as [Hs HR].
  unfold interpolate, rendered.
  unfold bind at 1. unfold lift at 1. rewrite (seeded_randn_ok _ _ Hs).
  rewrite pairs_loop_run; [|apply combine_seeds_ok; assumption|assumption|apply Zmod_0_l].
  rewrite length_combine, <- HL, Nat.min_id, Z.add_0_l. reflexivity.
Qed.

(** Whatever happens in the chain of prompt pairs, also when it is cut short
    by an exception, the files it has saved are numbered consecutively from
    the frame index it was entered with. *)
Lemma pairs_loop_paths (total : Z) (embeds_a latents_a : tensor)
    (pairs : list (string * Z)) (f : Z) (w : world) :
  exists m,
    map fst (cog_out (snd (pairs_loop scheduler num_inference_steps guidance_scale
                             num_steps total embeds_a latents_a pairs f w)))
    = map fst (cog_out w) ++ map frame_path (zrange f m).
Proof.
  revert embeds_a latents_a f w.
  induction pairs as [|[p s] pairs IH]; intros embeds_a latents_a f w.
  - exists O. cbn. now rewrite app_nil_r.
  - cbn [pairs_loop]. unfold bind at 1. unfold lift at 1.
    destruct (seeded_randn pipeline_device s) as [latents_b|e];
      [|exists O; cbn; now rewrite app_nil_r].
    unfold bind at 1. unfold lift at 1.
    destruct (linspace 0 1 num_steps) as [ts|e];
      [|exists O; cbn; now rewrite app_nil_r].
    unfold bind at 1. unfold enumerate. rewrite steps_loop_run.
    match goal with
    | |- context [pairs_loop _ _ _ _ _ ?ea ?la pairs ?f' ?w'] =>
        destruct (IH ea la f' w') as [m Hm]
    end.
    exists (List.length ts + m)%nat. rewrite Hm. cbn [cog_out].
    rewrite map_app, render_steps_paths, zrange_app, map_app, app_assoc. reflexivity.
Qed.

Lemma interpolate_paths (prompts : list string) (seeds : list Z) (w : world) :
  exists m,
    map fst (cog_out (snd (interpolate scheduler num_inference_steps guidance_scale
                             num_steps prompts seeds w)))
    = map fst (cog_out w) ++ map frame_path (zrange 0 m).
Proof.
  unfold interpolate.
  destruct prompts as [|p ps]; [exists O; cbn; now rewrite app_nil_r|].
  destruct seeds as [|s ss]; [exists O; cbn; now rewrite app_nil_r|].
  unfold bind at 1. unfold lift at 1.
  destruct (seeded_randn pipeline_device s) as [latents_a|e];
    [|exists O; cbn; now rewrite app_nil_r].
  apply pairs_loop_paths.
Qed.

End DriverFacts.

(** ** The whole run *)

Section PredictFacts.

Context {np : Numpy} {tc : Torch np} {pl : Pipeline tc} {os : OS}.

Variable int_max_str_digits : nat.
Variable scheduler : scheduler_choice.
Variable num_inference_steps : Z.
Variable guidance_scale : Q.
Variable num_steps : Z.
Variable fps : Z.

Lemma print_seeds_run (pairs : list (string * Z)) (w : world) :
  print_seeds pairs w
  = (Ok tt, mkWorld (urandom_read w) (stdout w ++ map seed_line pairs)
              (cog_out w) (shell_log w)).
Proof.
  revert w; induction pairs as [|[p s] pairs IH]; intros w.
  - cbn. unfold ret. destruct w; cbn. now rewrite app_nil_r.
  - cbn [print_seeds map]. unfold bind at 1. unfold print at 1.
    rewrite IH. cbn [urandom_read stdout cog_out shell_log].
    rewrite <- app_assoc. reflexivity.
Qed.

(** After a successful preparation the run prints the seed listing, empties
    the frame directory and enters the driver, then the encoder. *)
Lemma predict_after_prepare (prompts : string) (seeds : option string) (w w1 : world)
    (aligned_prompts : list string) (aligned_seeds : list Z) :
  prepare int_max_str_digits prompts seeds w = (Ok (aligned_prompts, aligned_seeds), w1) ->
  predict int_max_str_digits prompts seeds scheduler num_inference_steps guidance_scale
    num_steps fps w
  = bind (interpolate scheduler num_inference_steps guidance_scale num_steps
            aligned_prompts aligned_seeds)
      (fun _ => bind (run_cmd (encoder_command fps)) (fun _ => ret video_path))
      (mkWorld (urandom_read w1)
         (stdout w1 ++ "Seeds used for prompts are:"
                       :: map seed_line (combine aligned_prompts aligned_seeds))
         [] (shell_log w1)).
Proof.
  intros H. unfold predict. rewrite (bind_ok _ _ _ _ _ H).
  unfold bind at 1. unfold print at 1.
  unfold bind at 1. rewrite print_seeds_run.
  unfold bind at 1. unfold recreate_outdir at 1.
  cbn [urandom_read stdout cog_out shell_log].
  rewrite <- app_assoc. reflexivity.
Qed.

(** An accepted seed input always gets through the preparation, which
    aligns one seed with every prompt and touches neither the frame
    directory nor the shell. *)
Lemma prepare_accepted (prompts : string) (seeds : option string) (w : world) :
  seeds_accepted int_max_str_digits seeds = true ->
  exists aligned_seeds w1,
    prepare int_max_str_digits prompts seeds w
    = (Ok (map Py.strip (Py.split "|" prompts), aligned_seeds), w1)
    /\ List.length aligned_seeds = List.length (Py.split "|" prompts)
    /\ shell_log w1 = shell_log w
    /\ exists setting,
         stdout w1 = stdout w ++ setting
         /\ (setting = [] \/ setting = ["Setting Random seeds."]).
Proof.
  intros H. destruct seeds as [seeds|].
  - cbn in H. rewrite (prepare_given int_max_str_digits prompts seeds w H). cbv zeta.
    rewrite !length_map.
    destruct (_ <? _)%nat eqn:E.
    + apply Nat.ltb_lt in E. eexists _, _. split; [reflexivity|].
      rewrite length_firstn, !length_map. split; [lia|]. split; [reflexivity|].
      exists []. rewrite app_nil_r. auto.
    + apply Nat.ltb_ge in E. eexists _, _. split; [reflexivity|].
      rewrite length_app, drawn_length, !length_map. split; [lia|].
      split; [reflexivity|]. eexists. split; [reflexivity|]. auto.
  - rewrite prepare_random. cbv zeta. eexists _, _. split; [reflexivity|].
    rewrite drawn_length, length_map. split; [reflexivity|].
    split; [reflexivity|]. eexists. split; [reflexivity|]. auto.
Qed.

(** The encoder step leaves the frame directory as it is, whatever its fate. *)
Lemma encoder_keeps_frames {A : Type} (command : string) (a : A) (w : world) :
  cog_out (snd (bind (run_cmd command) (fun _ => ret a) w)) = cog_out w.
Proof.
  unfold bind at 1. unfold run_cmd. unfold bind at 1. unfold call at 1.
  destruct (subprocess_call command); reflexivity.
Qed.

Lemma drawn_seeds_ok (c n : nat) :
  Forall (fun seed => manual_seed_ok seed = true) (drawn c n).
Proof.
  revert c; induction n as [|n IH]; intros c; [constructor|].
  cbn [drawn]. constructor; [|apply IH].
  unfold Py.int_from_bytes_big. cbn [fold_left].
  pose proof (Byte.to_N_bounded (entropy c)).
  pose proof (Byte.to_N_bounded (entropy (S c))).
  unfold manual_seed_ok. apply andb_true_iff. split; apply Z.leb_le; lia.
Qed.

(** When the seeds that reach torch are in range, every aligned seed is. *)
Lemma prepare_in_range (prompts : string) (seeds : option string) (w w1 : world)
    (aligned_prompts : list string) (aligned_seeds : list Z) :
  prepare int_max_str_digits prompts seeds w = (Ok (aligned_prompts, aligned_seeds), w1) ->
  seeds_in_range prompts seeds = true ->
  Forall (fun seed => manual_seed_ok seed = true) aligned_seeds.
Proof.
  destruct seeds as [seeds|].
  - destruct (forallb (acceptable_seed int_max_str_digits) (seed_tokens seeds)) eqn:Ha.
    + rewrite (prepare_given int_max_str_digits prompts seeds w Ha). cbv zeta.
      cbn [seeds_in_range]. rewrite !length_map.
      destruct (_ <? _)%nat eqn:E; intros H HR; injection H as _ <- _.
      * apply Forall_forall. intros x Hx. rewrite forallb_forall in HR. now apply HR.
      * apply Nat.ltb_ge in E.
        rewrite firstn_all2 in HR by (rewrite length_map; exact E).
        apply Forall_app. split; [|apply drawn_seeds_ok].
        apply Forall_forall. intros x Hx. rewrite forallb_forall in HR. now apply HR.
    + unfold prepare. fold (seed_tokens seeds).
      unfold bind at 1. rewrite assert_all_isdigit_run.
      destruct (forallb Py.isdigit (seed_tokens seeds)); [|discriminate].
      destruct (convert_rejected int_max_str_digits _ w Ha) as [msg Hm].
      unfold bind at 1. rewrite Hm. discriminate.
  - rewrite prepare_random. cbv zeta. intros H _. injection H as _ <- _.
    apply drawn_seeds_ok.
Qed.

(** A seed token that is no decimal literal stops the preparation before
    anything is drawn or printed. *)
Lemma prepare_rejects (prompts seeds : string) (token : string) (w : world) :
  In token (seed_tokens seeds) ->
  Py.is_decimal_literal token = false ->
  exists e,
    prepare int_max_str_digits prompts (Some seeds) w = (Raise e, w)
    /\ rejection e
    /\ (Py.isdigit token = false -> e = AssertionError "Please provide integer seed.").
Proof.
  intros Hin Hlit. unfold prepare. fold (seed_tokens seeds).
  destruct (forallb Py.isdigit (seed_tokens seeds)) eqn:Ed.
  - assert (Ha : forallb (acceptable_seed int_max_str_digits) (seed_tokens seeds) = false).
    { destruct (forallb (acceptable_seed int_max_str_digits) (seed_tokens seeds)) eqn:E;
        [|reflexivity].
      rewrite forallb_forall in E. specialize (E _ Hin).
      unfold acceptable_seed in E. rewrite Hlit in E. discriminate E. }
    destruct (convert_rejected int_max_str_digits _ w Ha) as [msg Hm].
    exists (ValueError msg). split.
    + rewrite (bind_ok _ _ w w tt) by (rewrite assert_all_isdigit_run, Ed; reflexivity).
      now rewrite (bind_raise _ _ _ _ _ Hm).
    + split; [right; now exists msg|].
      intros Hd. rewrite forallb_forall in Ed. rewrite (Ed _ Hin) in Hd. discriminate Hd.
  - eexists. split.
    + apply bind_raise. rewrite assert_all_isdigit_run, Ed. reflexivity.
    + split; [now left | reflexivity].
Qed.

(** C5: a seed token that is not a non-negative integer literal makes the
    run fail before any seed is drawn, anything is printed, the frame
    directory is touched or the encoder is called; a token that holds a
    non-digit character (or is empty) fails the assertion. *)
Theorem predict_rejects_bad_seed (prompts seeds : string) (token : string) (w : world) :
  In token (seed_tokens seeds) ->
  Py.is_decimal_literal token = false ->
  exists e,
    predict int_max_str_digits prompts (Some seeds) scheduler num_inference_steps
      guidance_scale num_steps fps w = (Raise e, w)
    /\ rejection e
    /\ (Py.isdigit token = false -> e = AssertionError "Please provide integer seed.").
Proof.
  intros Hin Hlit.
  destruct (prepare_rejects prompts seeds token w Hin Hlit) as (e & He & Hr & Ha).
  exists e. split; [|now split].
  unfold predict. now apply bind_raise.
Qed.

(** C8 (as amended): on seeds torch accepts, the driver prints a progress
    line on the first step of every prompt pair and on every frame whose
    1-based number is a multiple of 20, and on no other frame; the frames it
    saves are those of [rendered], which does not depend on what is
    printed. *)
Theorem interpolate_progress (p : string) (ps : list string) (s : Z) (ss : list Z)
    (w : world) :
  List.length ps = List.length ss ->
  Forall (fun seed => manual_seed_ok seed = true) (s :: ss) ->
  0 <= num_steps ->
  interpolate scheduler num_inference_steps guidance_scale num_steps (p :: ps) (s :: ss) w
  = (Ok (Z.of_nat (List.length ps) * num_steps),
     mkWorld (urandom_read w)
       (stdout w ++ map (count_line (Z.of_nat (List.length ps) * num_steps))
                      (filter (progress_due num_steps)
                         (zrange 0 (List.length ps * Z.to_nat num_steps))))
       (cog_out w ++ rendered scheduler num_inference_steps guidance_scale num_steps
                       (p :: ps) (s :: ss))
       (shell_log w)).
Proof. apply interpolate_run. Qed.

(** C7 (as amended): from two steps on, and on seeds torch accepts, the
    frames of every prompt pair are rendered at the samples of
    [np.linspace(0, 1, num_steps)], one frame per sample and in their order:
    exactly [num_steps] values, the first 0 and the last 1, with the
    constant gap [1 / (num_steps - 1)], all inside the closed unit
    interval. *)
Theorem interpolate_parameter_samples (p : string) (ps : list string) (s : Z)
    (ss : list Z) (w : world) :
  List.length ps = List.length ss ->
  Forall (fun seed => manual_seed_ok seed = true) (s :: ss) ->
  2 <= num_steps ->
  exists ts,
    linspace 0 1 num_steps = Ok ts
    /\ samples_closed_unit_interval num_steps ts
    /\ cog_out (snd (interpolate scheduler num_inference_steps guidance_scale num_steps
                       (p :: ps) (s :: ss) w))
       = cog_out w
         ++ render_pairs scheduler num_inference_steps guidance_scale
              (embed_text p) (torch_randn pipeline_device s) (combine ps ss) ts 0.
Proof.
  intros HL HR HK.
  destruct (linspace_two_or_more num_steps HK) as (ts & E & HP).
  exists ts. split; [exact E|]. split; [exact HP|].
  rewrite linspace_nonneg in E by lia. injection E as <-.
  rewrite (interpolate_run scheduler num_inference_steps guidance_scale num_steps
             _ _ _ _ w HL HR) by lia.
  reflexivity.
Qed.

Lemma split_single (sep : ascii) (s : string) :
  List.length (Py.split sep s) = 1%nat -> Py.split sep s = [s].
Proof.
  induction s as [|c r IH]; [reflexivity|].
  cbn [Py.split]. pose proof (split_nonempty sep r) as Hne.
  destruct (Ascii.eqb c sep).
  - destruct (Py.split sep r); [contradiction | discriminate].
  - destruct (Py.split sep r) as [|h t]; [contradiction|].
    cbn [List.length]. intros H. destruct t; [|discriminate H].
    rewrite IH in * by reflexivity. now injection IH as ->.
Qed.

(** C10 (as amended): with a single prompt, a seed input that is absent or
    made of valid tokens the first of which torch accepts as a seed, and an
    encoder call that returns (with whatever exit status), the pair loop
    does nothing: nothing but the seed listing is printed, the frame
    directory is left empty, the encoder is invoked once on it and the run
    returns the video path. *)
Theorem predict_single_prompt (prompts : string) (seeds : option string) (status : Z)
    (w : world) :
  List.length (Py.split "|" prompts) = 1%nat ->
  seeds_accepted int_max_str_digits seeds = true ->
  seeds_in_range prompts seeds = true ->
  subprocess_call (encoder_command fps) = Returned status ->
  exists w' setting seed,
    predict int_max_str_digits prompts seeds scheduler num_inference_steps
      guidance_scale num_steps fps w = (Ok video_path, w')
    /\ cog_out w' = []
    /\ shell_log w' = shell_log w ++ [encoder_command fps]
    /\ stdout w' = stdout w ++ setting
                   ++ ["Seeds used for prompts are:"; seed_line (Py.strip prompts, seed)]
    /\ (setting = [] \/ setting = ["Setting Random seeds."]).
Proof.
  intros H1 Hs Hr Hc.
  destruct (prepare_accepted prompts seeds w Hs)
    as (ss & w1 & Hp & Hl & Hsh & setting & Hout & Hset).
  pose proof (prepare_in_range _ _ _ _ _ _ Hp Hr) as HR.
  rewrite (predict_after_prepare _ _ _ _ _ _ Hp).
  rewrite H1 in Hl. rewrite (split_single _ _ H1).
  destruct ss as [|seed [|s1 ss]]; try discriminate Hl.
  apply Forall_cons_iff in HR as [Hseed _].
  cbn [map combine].
  unfold bind at 1. cbn [interpolate combine].
  unfold bind at 1. unfold lift at 1. rewrite (seeded_randn_ok _ _ Hseed).
  cbn [pairs_loop]. unfold ret at 1.
  unfold bind at 1. rewrite (run_cmd_returned _ status _ Hc). unfold ret.
  cbn [urandom_read stdout cog_out shell_log].
  eexists _, setting, seed. split; [reflexivity|].
  cbn [urandom_read stdout cog_out shell_log].
  split; [reflexivity|]. split; [now rewrite Hsh|].
  split; [|assumption]. rewrite Hout, <- app_assoc. reflexivity.
Qed.

End PredictFacts.

(** ** Runs in the dry environment *)

Example predict_six_frames :
  map fst (cog_out (snd (@predict _ _ Dry.pipeline (Dry.os (Returned 1)) 4300
                           "a cat | a dog | a horse" (Some "42") klms 50 (15 # 2) 3 15
                           Dry.w0)))
  = ["cog_out/frame000000.jpg"; "cog_out/frame000001.jpg"; "cog_out/frame000002.jpg";
     "cog_out/frame000003.jpg"; "cog_out/frame000004.jpg"; "cog_out/frame000005.jpg"].
Proof. vm_compute. reflexivity. Qed.

Lemma predict_rejects_bad_seed_witness :
  In "x7" (seed_tokens "42 | x7")
  /\ Py.is_decimal_literal "x7" = false
  /\ exists e,
       @predict _ _ Dry.pipeline (Dry.os (Returned 0)) 4300 "a cat | a dog"
         (Some "42 | x7") klms 50 (15 # 2) 3 15 Dry.w0 = (Raise e, Dry.w0)
       /\ rejection e
       /\ (Py.isdigit "x7" = false -> e = AssertionError "Please provide integer seed.").
Proof.
  split; [right; left; reflexivity|]. split; [reflexivity|].
  apply (@predict_rejects_bad_seed _ _ Dry.pipeline (Dry.os (Returned 0)) 4300 klms 50
           (15 # 2) 3 15 "a cat | a dog" "42 | x7" "x7" Dry.w0);
    [right; left; reflexivity | reflexivity].
Defined.

(** A superscript two passes [isdigit] and is refused by [int]. *)
Example predict_superscript_seed :
  @predict _ _ Dry.pipeline (Dry.os (Returned 0)) 4300 "a cat | a dog"
    (Some (String (ascii_of_nat 178) EmptyString)) klms 50 (15 # 2) 3 15 Dry.w0
  = (Raise (ValueError "invalid literal for int() with base 10"), Dry.w0).
Proof. vm_compute. reflexivity. Qed.

Lemma interpolate_progress_witness :
  List.length ["b"; "c"] = List.length [2; 3]
  /\ Forall (fun seed => manual_seed_ok seed = true) (1 :: [2; 3])
  /\ 0 <= 2
  /\ @interpolate _ _ Dry.pipeline klms 50 (15 # 2) 2
       ("a" :: ["b"; "c"]) (1 :: [2; 3]) Dry.w0
     = (Ok (Z.of_nat (List.length ["b"; "c"]) * 2),
        mkWorld (urandom_read Dry.w0)
          (stdout Dry.w0
           ++ map (count_line (Z.of_nat (List.length ["b"; "c"]) * 2))
                (filter (progress_due 2)
                   (zrange 0 (List.length ["b"; "c"] * Z.to_nat 2))))
          (cog_out Dry.w0
           ++ @rendered _ _ Dry.pipeline klms 50 (15 # 2) 2 ("a" :: ["b"; "c"]) (1 :: [2; 3]))
          (shell_log Dry.w0)).
Proof.
  split; [reflexivity|]. split; [repeat constructor|]. split; [lia|].
  apply (@interpolate_progress _ _ Dry.pipeline klms 50 (15 # 2) 2
           "a" ["b"; "c"] 1 [2; 3] Dry.w0);
    [reflexivity | repeat constructor | lia].
Defined.

Lemma interpolate_parameter_samples_witness :
  List.length ["b"; "c"] = List.length [2; 3]
  /\ Forall (fun seed => manual_seed_ok seed = true) (1 :: [2; 3])
  /\ 2 <= 3
  /\ exists ts,
       linspace 0 1 3 = Ok ts
       /\ samples_closed_unit_interval 3 ts
       /\ cog_out (snd (@interpolate _ _ Dry.pipeline klms 50 (15 # 2) 3
                          ("a" :: ["b"; "c"]) (1 :: [2; 3]) Dry.w0))
          = cog_out Dry.w0
            ++ @render_pairs _ _ Dry.pipeline klms 50 (15 # 2)
                 (@embed_text _ _ Dry.pipeline "a")
                 (torch_randn (@pipeline_device _ _ Dry.pipeline) 1)
                 (combine ["b"; "c"] [2; 3]) ts 0.
Proof.
  split; [reflexivity|]. split; [repeat constructor|]. split; [lia|].
  apply (@interpolate_parameter_samples _ _ Dry.pipeline klms 50 (15 # 2) 3
           "a" ["b"; "c"] 1 [2; 3] Dry.w0);
    [reflexivity | repeat constructor | lia].
Defined.

(** With three prompts and two steps a progress line is printed while the
    third frame is produced, the first step of the second pair: it is
    neither the first step of the run nor a 20th frame. *)
Lemma progress_printed_on_second_pair :
  stdout (snd (@interpolate _ _ Dry.pipeline klms 50 (15 # 2) 2
                 ["a"; "b"; "c"] [1; 2; 3] Dry.w0))
  = ["COUNT: 1/4"; "COUNT: 3/4"]
  /\ map (count_line 4) (filter progress_due_as_specified (zrange 0 4)) = ["COUNT: 1/4"].
Proof. split; vm_compute; reflexivity. Qed.

Lemma predict_single_prompt_witness :
  List.length (Py.split "|" "a cat") = 1%nat
  /\ seeds_accepted 4300 None = true
  /\ seeds_in_range "a cat" None = true
  /\ @subprocess_call (Dry.os (Returned 1)) (encoder_command 15) = Returned 1
  /\ exists w' setting seed,
       @predict _ _ Dry.pipeline (Dry.os (Returned 1)) 4300 "a cat" None klms 50 (15 # 2)
         50 15 Dry.w0 = (Ok video_path, w')
       /\ cog_out w' = []
       /\ shell_log w' = shell_log Dry.w0 ++ [encoder_command 15]
       /\ stdout w' = stdout Dry.w0 ++ setting
                      ++ ["Seeds used for prompts are:"; seed_line (Py.strip "a cat", seed)]
       /\ (setting = [] \/ setting = ["Setting Random seeds."]).
Proof.
  split; [reflexivity|]. split; [reflexivity|]. split; [reflexivity|].
  split; [reflexivity|].
  apply (@predict_single_prompt _ _ Dry.pipeline (Dry.os (Returned 1)) 4300 klms 50
           (15 # 2) 50 15 "a cat" None 1 Dry.w0); reflexivity.
Defined.

(** A single prompt with a valid seed of 2^64: seeding the generator for the
    first latent raises before the pair loop and the encoder are reached. *)
Lemma single_prompt_seed_overflow_raises :
  List.length (Py.split "|" "a cat") = 1%nat
  /\ seeds_accepted 4300 (Some "18446744073709551616") = true
  /\ @predict _ _ Dry.pipeline (Dry.os (Returned 0)) 4300 "a cat"
       (Some "18446744073709551616") klms 50 (15 # 2) 50 15 Dry.w0
     = (Raise (RuntimeError "Overflow when unpacking long"),
        mkWorld 0
          ["Setting Random seeds."; "Seeds used for prompts are:";
           "a cat: 18446744073709551616"] [] []).
Proof. repeat split; vm_compute; reflexivity. Qed.

Example single_prompt_dry_run :
  @predict _ _ Dry.pipeline (Dry.os (Returned 1)) 4300 "a cat" None klms 50 (15 # 2) 50 15
    Dry.w0
  = (Ok "/tmp/out.mp4",
     mkWorld 2 ["Setting Random seeds."; "Seeds used for prompts are:"; "a cat: 2864"] []
       ["ffmpeg -y -r 15 -i cog_out/frame%06d.jpg -vcodec libx264 -crf 25  -pix_fmt yuv420p /tmp/out.mp4"]).
Proof. vm_compute. reflexivity. Qed.

(** A negative step count with two prompts: [np.linspace] raises and no
    frame is written. *)
Example negative_steps_dry_run :
  @predict _ _ Dry.pipeline (Dry.os (Returned 0)) 4300 "a|b" (Some "1|2") klms 50 (15 # 2)
    (-1) 15 Dry.w0
  = (Raise (ValueError "Number of samples, -1, must be non-negative."),
     mkWorld 0 ["Setting Random seeds."; "Seeds used for prompts are:"; "a: 1"; "b: 2"] [] []).
Proof. vm_compute. reflexivity. Qed.

(** * Further properties *)

(** ** Decimal strings *)

Ltac digit_step :=
  unfold Py.digit_value;
  match goal with
  | |- context [Z.of_nat ?n] =>
      let v := eval vm_compute in (Z.of_nat n) in change (Z.of_nat n) with v
  end;
  lia.

Lemma decimal_value_uint_acc (d : Decimal.uint) (acc : positive) :
  Py.decimal_value (Z.pos acc) (NilEmpty.string_of_uint d) = Z.pos (Pos.of_uint_acc d acc).
Proof.
  revert acc; induction d; intros acc;
    cbn [NilEmpty.string_of_uint Py.decimal_value Pos.of_uint_acc];
    try reflexivity.
  all: rewrite <- IHd; f_equal; digit_step.
Qed.

Lemma decimal_value_uint (d : Decimal.uint) :
  Py.decimal_value 0 (NilEmpty.string_of_uint d) = Z.of_N (Pos.of_uint d).
Proof.
  induction d; cbn [NilEmpty.string_of_uint Py.decimal_value Pos.of_uint Z.of_N];
    try reflexivity; try exact IHd.
  all: rewrite <- decimal_value_uint_acc; f_equal.
Qed.

Lemma uint_string_decimal (d : Decimal.uint) :
  Py.forallb_str Py.isdecimal_char (NilEmpty.string_of_uint d) = true.
Proof. induction d; cbn [NilEmpty.string_of_uint Py.forallb_str]; try reflexivity; exact IHd. Qed.

(** [str] of a non-negative integer is a decimal literal whose value is the
    integer. *)
Lemma str_decimal (n : Z) :
  0 <= n ->
  Py.is_decimal_literal (Py.str n) = true /\ Py.decimal_value 0 (Py.str n) = n.
Proof.
  intros Hn. unfold Py.str. destruct n as [|p|p]; [split; reflexivity| |lia].
  cbn [Z.to_int NilZero.string_of_int]. unfold NilZero.string_of_uint.
  pose proof (DecimalPos.Unsigned.of_to p) as Hp.
  destruct (Pos.to_uint p) eqn:E; [cbn in Hp; discriminate Hp| | | | | | | | | |].
  all: rewrite decimal_value_uint, Hp; split; [|reflexivity].
  all: unfold Py.is_decimal_literal;
    cbn [NilEmpty.string_of_uint]; cbn [Py.forallb_str]; apply uint_string_decimal.
Qed.

Lemma decimal_char_value (c : ascii) :
  Py.isdecimal_char c = true -> 0 <= Py.digit_value c <= 9.
Proof.
  unfold Py.isdecimal_char, Py.digit_value. intros H.
  apply andb_true_iff in H as [H1 H2].
  apply N.leb_le in H1. apply N.leb_le in H2. lia.
Qed.

Lemma decimal_value_nonneg (s : string) (acc : Z) :
  Py.forallb_str Py.isdecimal_char s = true -> 0 <= acc -> 0 <= Py.decimal_value acc s.
Proof.
  revert acc; induction s as [|c r IH]; intros acc H Hacc; [exact Hacc|].
  cbn [Py.forallb_str] in H. apply andb_true_iff in H as [H1 H2].
  cbn [Py.decimal_value]. apply IH; [assumption|].
  pose proof (decimal_char_value c H1). lia.
Qed.

(** X6: a non-negative integer printed with [str] passes [isdigit] and is
    read back by [int] as the same integer (when its length is within the
    interpreter's digit limit). *)
Theorem str_int_round_trip (int_max_str_digits : nat) (n : Z) :
  0 <= n ->
  (int_max_str_digits = 0 \/ String.length (Py.str n) <= int_max_str_digits)%nat ->
  Py.isdigit (Py.str n) = true /\ Py.int int_max_str_digits (Py.str n) = Ok n.
Proof.
  intros Hn Hl. destruct (str_decimal n Hn) as [Hd Hv].
  assert (Ha : acceptable_seed int_max_str_digits (Py.str n) = true).
  { unfold acceptable_seed. rewrite Hd. cbn [andb].
    destruct Hl as [-> | Hl]; [reflexivity|].
    apply Nat.leb_le in Hl. rewrite Hl. apply orb_true_r. }
  destruct (acceptable_seed_int int_max_str_digits _ Ha) as [H1 H2].
  split; [assumption|]. now rewrite H2, Hv.
Qed.

Lemma str_int_round_trip_witness :
  0 <= 2864
  /\ (4300 = 0 \/ String.length (Py.str 2864) <= 4300)%nat
  /\ Py.isdigit (Py.str 2864) = true /\ Py.int 4300 (Py.str 2864) = Ok 2864.
Proof.
  split; [lia|]. split; [right; vm_compute; lia|].
  apply (str_int_round_trip 4300 2864); [lia | right; vm_compute; lia].
Defined.

(** ** Trimming *)

Lemma rstrip_keeps_head (c : ascii) (r : string) :
  Py.isspace c = false -> Py.rstrip (String c r) = String c (Py.rstrip r).
Proof. intros H. cbn [Py.rstrip]. rewrite H. now destruct (Py.rstrip r). Qed.

Lemma rstrip_idempotent (s : string) : Py.rstrip (Py.rstrip s) = Py.rstrip s.
Proof.
  induction s as [|c r IH]; [reflexivity|].
  cbn [Py.rstrip]. destruct (Py.rstrip r) as [|c' r'] eqn:E.
  - destruct (Py.isspace c) eqn:Ec; [reflexivity|].
    cbn [Py.rstrip]. now rewrite Ec.
  - change (Py.rstrip (String c (String c' r'))) with
      (match Py.rstrip (String c' r') with
       | EmptyString => if Py.isspace c then EmptyString else String c EmptyString
       | r'' => String c r''
       end).
    now rewrite IH.
Qed.

Lemma lstrip_head (s : string) :
  Py.lstrip s = EmptyString
  \/ exists c r, Py.lstrip s = String c r /\ Py.isspace c = false.
Proof.
  induction s as [|c r IH]; [now left|].
  cbn [Py.lstrip]. destruct (Py.isspace c) eqn:E; [exact IH|].
  right. now exists c, r.
Qed.

(** A trimmed string has nothing left to trim at either end. *)
Lemma strip_fixed (s : string) :
  Py.lstrip (Py.strip s) = Py.strip s /\ Py.rstrip (Py.strip s) = Py.strip s.
Proof.
  unfold Py.strip. split; [|apply rstrip_idempotent].
  destruct (lstrip_head s) as [-> | (c & r & -> & Hc)]; [reflexivity|].
  rewrite (rstrip_keeps_head c r Hc). cbn [Py.lstrip]. now rewrite Hc.
Qed.

Lemma strip_idempotent (s : string) : Py.strip (Py.strip s) = Py.strip s.
Proof.
  destruct (strip_fixed s) as [H1 H2].
  unfold Py.strip at 1. now rewrite H1, H2.
Qed.

(** ** Frame paths *)

Lemma decimal_value_zeros (k : nat) (s : string) :
  Py.decimal_value 0 (Py.zeros k ++ s) = Py.decimal_value 0 s.
Proof. induction k as [|k IH]; [reflexivity|]. cbn. exact IH. Qed.

Lemma fmt_06d_value (n : Z) : 0 <= n -> Py.decimal_value 0 (Py.fmt_06d n) = n.
Proof.
  intros Hn. unfold Py.fmt_06d.
  destruct (n <? 0) eqn:E; [apply Z.ltb_lt in E; lia|].
  rewrite decimal_value_zeros, Z.abs_eq by assumption.
  now destruct (str_decimal n Hn).
Qed.

Lemma append_length (a b : string) :
  String.length (a ++ b) = (String.length a + String.length b)%nat.
Proof. induction a as [|c a IH]; [reflexivity|]. cbn. now rewrite IH. Qed.

Lemma append_cancel_r (a b t : string) : (a ++ t = b ++ t)%string -> a = b.
Proof.
  revert b; induction a as [|c a IH]; intros [|c' b] H.
  - reflexivity.
  - apply (f_equal String.length) in H. cbn in H. rewrite append_length in H. lia.
  - apply (f_equal String.length) in H. cbn in H. rewrite append_length in H. lia.
  - cbn in H. injection H as -> H. f_equal. now apply IH.
Qed.

Lemma frame_path_injective (a b : Z) :
  0 <= a -> 0 <= b -> frame_path a = frame_path b -> a = b.
Proof.
  intros Ha Hb H. unfold frame_path, os_path_join, outdir in H.
  cbn [String.append] in H.
  repeat match type of H with String _ _ = String _ _ => injection H as H end.
  apply append_cancel_r in H.
  rewrite <- (fmt_06d_value a Ha), <- (fmt_06d_value b Hb). now rewrite H.
Qed.

Lemma zrange_NoDup (a : Z) (n : nat) : NoDup (zrange a n).
Proof.
  revert a; induction n as [|n IH]; intros a; [constructor|].
  cbn [zrange]. constructor; [|apply IH].
  rewrite zrange_In. lia.
Qed.

Lemma frame_paths_NoDup (n : nat) : NoDup (map frame_path (zrange 0 n)).
Proof.
  apply NoDup_map_NoDup_ForallPairs; [|apply zrange_NoDup].
  intros a b Ha Hb. apply zrange_In in Ha, Hb. apply frame_path_injective; lia.
Qed.

(** ** Seeds *)

Section SeedFacts.

Context {np : Numpy} {tc : Torch np} {pl : Pipeline tc} {os : OS}.

Variable int_max_str_digits : nat.

Lemma drawn_in_range (c n : nat) : Forall (fun s => 0 <= s < 65536) (drawn c n).
Proof.
  revert c; induction n as [|n IH]; intros c; [constructor|].
  cbn [drawn]. constructor; [|apply IH].
  unfold Py.int_from_bytes_big. cbn [fold_left].
  pose proof (Byte.to_N_bounded (entropy c)).
  pose proof (Byte.to_N_bounded (entropy (S c))). lia.
Qed.

Lemma given_seeds_nonneg (tokens : list string) :
  forallb (acceptable_seed int_max_str_digits) tokens = true ->
  Forall (fun s => 0 <= s) (map (Py.decimal_value 0) tokens).
Proof.
  induction tokens as [|t r IH]; intros H; [constructor|].
  cbn [forallb] in H. apply andb_true_iff in H as [H1 H2].
  cbn [map]. constructor; [|now apply IH].
  unfold acceptable_seed in H1. apply andb_true_iff in H1 as [H1 _].
  destruct t as [|c t]; [discriminate H1|].
  apply decimal_value_nonneg; [exact H1 | lia].
Qed.

(** X1: without a seed string the preparation cannot fail: it draws one
    seed per prompt, each a 16-bit value, and reads exactly two bytes of
    entropy per prompt. *)
Theorem prepare_random_seeds (prompts : string) (w : world) :
  exists aligned_seeds w1,
    prepare int_max_str_digits prompts None w
    = (Ok (map Py.strip (Py.split "|" prompts), aligned_seeds), w1)
    /\ List.length aligned_seeds = List.length (Py.split "|" prompts)
    /\ Forall (fun s => 0 <= s < 65536) aligned_seeds
    /\ urandom_read w1 = (urandom_read w + 2 * List.length (Py.split "|" prompts))%nat.
Proof.
  rewrite prepare_random. cbv zeta. eexists _, _. split; [reflexivity|].
  rewrite drawn_length, length_map. split; [reflexivity|].
  split; [apply drawn_in_range | reflexivity].
Qed.

(** X2: every seed the preparation hands to the driver is a non-negative
    integer, whether given or drawn. *)
Theorem prepare_seeds_nonnegative (prompts : string) (seeds : option string) (w w1 : world)
    (aligned_prompts : list string) (aligned_seeds : list Z) :
  prepare int_max_str_digits prompts seeds w = (Ok (aligned_prompts, aligned_seeds), w1) ->
  Forall (fun s => 0 <= s) aligned_seeds.
Proof.
  assert (R : forall c n, Forall (fun s => 0 <= s) (drawn c n)).
  { intros c n. eapply Forall_impl; [|apply drawn_in_range]. cbv beta. lia. }
  destruct seeds as [seeds|].
  - destruct (forallb (acceptable_seed int_max_str_digits) (seed_tokens seeds)) eqn:Ha.
    + rewrite (prepare_given int_max_str_digits prompts seeds w Ha). cbv zeta.
      pose proof (given_seeds_nonneg _ Ha) as G.
      destruct (_ <? _)%nat; intros H; injection H as _ <- _.
      * rewrite <- (firstn_skipn (List.length (map Py.strip (Py.split "|" prompts)))) in G.
        apply Forall_app in G. exact (proj1 G).
      * apply Forall_app. split; [exact G | apply R].
    + unfold prepare. fold (seed_tokens seeds).
      unfold bind at 1. rewrite assert_all_isdigit_run.
      destruct (forallb Py.isdigit (seed_tokens seeds)); [|discriminate].
      destruct (convert_rejected int_max_str_digits _ w Ha) as [msg Hm].
      unfold bind at 1. rewrite Hm. discriminate.
  - rewrite prepare_random. cbv zeta. intros H. injection H as _ <- _. apply R.
Qed.

(** X3: with a valid seed string the preparation reads two bytes of entropy
    for every prompt that has no seed, and none when every prompt has one;
    ["Setting Random seeds."] is printed exactly when the seeds do not
    outnumber the prompts, even if nothing is drawn. *)
Theorem prepare_entropy_use (prompts seeds : string) (w : world) :
  forallb (acceptable_seed int_max_str_digits) (seed_tokens seeds) = true ->
  exists aligned w1,
    prepare int_max_str_digits prompts (Some seeds) w = (Ok aligned, w1)
    /\ urandom_read w1
       = (urandom_read w
          + 2 * (List.length (Py.split "|" prompts) - List.length (seed_tokens seeds)))%nat
    /\ stdout w1
       = stdout w
         ++ (if (List.length (Py.split "|" prompts) <? List.length (seed_tokens seeds))%nat
             then [] else ["Setting Random seeds."]).
Proof.
  intros H. rewrite (prepare_given int_max_str_digits prompts seeds w H). cbv zeta.
  rewrite !length_map.
  destruct (_ <? _)%nat eqn:E; eexists _, _; (split; [reflexivity|]).
  - apply Nat.ltb_lt in E. split; [lia | now rewrite app_nil_r].
  - split; reflexivity.
Qed.

End SeedFacts.

Lemma prepare_seeds_nonnegative_witness :
  @prepare _ _ Dry.pipeline (Dry.os (Returned 0)) 4300 "a|b" (Some "1|2|3") Dry.w0
  = (Ok (["a"; "b"], [1; 2]), Dry.w0)
  /\ Forall (fun s => 0 <= s) [1; 2].
Proof.
  split; [reflexivity|].
  apply (@prepare_seeds_nonnegative _ _ Dry.pipeline (Dry.os (Returned 0)) 4300
           "a|b" (Some "1|2|3") Dry.w0 Dry.w0 ["a"; "b"] [1; 2]).
  reflexivity.
Defined.

Lemma prepare_entropy_use_witness :
  forallb (acceptable_seed 4300) (seed_tokens "42") = true
  /\ exists aligned w1,
    @prepare _ _ Dry.pipeline (Dry.os (Returned 0)) 4300 "a|b|c" (Some "42") Dry.w0
    = (Ok aligned, w1)
    /\ urandom_read w1
       = (urandom_read Dry.w0
          + 2 * (List.length (Py.split "|" "a|b|c") - List.length (seed_tokens "42")))%nat
    /\ stdout w1
       = stdout Dry.w0
         ++ (if (List.length (Py.split "|" "a|b|c") <? List.length (seed_tokens "42"))%nat
             then [] else ["Setting Random seeds."]).
Proof.
  split; [reflexivity|].
  apply (@prepare_entropy_use _ _ Dry.pipeline (Dry.os (Returned 0)) 4300 "a|b|c" "42"
           Dry.w0).
  reflexivity.
Defined.

(** ** The run as a whole *)

Section RunFacts.

Context {np : Numpy} {tc : Torch np} {pl : Pipeline tc}.

Variable int_max_str_digits : nat.
Variable scheduler : scheduler_choice.
Variable num_inference_steps : Z.
Variable guidance_scale : Q.
Variable num_steps : Z.
Variable fps : Z.

Lemma rendered_paths (prompts : list string) (seeds : list Z) :
  List.length seeds = List.length prompts ->
  map fst (rendered scheduler num_inference_steps guidance_scale num_steps prompts seeds)
  = map frame_path (zrange 0 ((List.length prompts - 1) * Z.to_nat num_steps)).
Proof.
  intros HL. destruct prompts as [|p ps], seeds as [|s ss]; try discriminate HL;
    [reflexivity|].
  cbn [rendered List.length] in *. rewrite render_pairs_paths.
  rewrite length_combine, linspace_samples_length.
  replace (Nat.min (List.length ps) (List.length ss)) with (S (List.length ps) - 1)%nat
    by lia.
  reflexivity.
Qed.

Lemma prepare_ok_prompts {os : OS} (prompts : string) (seeds : option string)
    (w w1 : world) (aligned_prompts : list string) (aligned_seeds : list Z) :
  prepare int_max_str_digits prompts seeds w = (Ok (aligned_prompts, aligned_seeds), w1) ->
  aligned_prompts = map Py.strip (Py.split "|" prompts).
Proof.
  destruct seeds as [seeds|].
  - destruct (forallb (acceptable_seed int_max_str_digits) (seed_tokens seeds)) eqn:Ha.
    + rewrite (prepare_given int_max_str_digits prompts seeds w Ha). cbv zeta.
      destruct (_ <? _)%nat; intros H; now injection H as <- _ _.
    + unfold prepare. fold (seed_tokens seeds).
      unfold bind at 1. rewrite assert_all_isdigit_run.
      destruct (forallb Py.isdigit (seed_tokens seeds)); [|discriminate].
      destruct (convert_rejected int_max_str_digits _ w Ha) as [msg Hm].
      unfold bind at 1. rewrite Hm. discriminate.
  - rewrite prepare_random. cbv zeta. intros H. now injection H as <- _ _.
Qed.

(** X5: the prompts handed to the driver are the pieces between the
    delimiters, one more than there are delimiters (empty pieces included),
    each trimmed so that trimming it again changes nothing. *)
Theorem prepare_prompts_trimmed {os : OS} (prompts : string) (seeds : option string)
    (w w1 : world) (aligned_prompts : list string) (aligned_seeds : list Z) :
  prepare int_max_str_digits prompts seeds w = (Ok (aligned_prompts, aligned_seeds), w1) ->
  List.length aligned_prompts = S (Py.count "|" prompts)
  /\ Forall (fun p => Py.strip p = p) aligned_prompts.
Proof.
  intros H. rewrite (prepare_ok_prompts _ _ _ _ _ _ H).
  rewrite length_map, split_length. split; [reflexivity|].
  apply Forall_forall. intros p Hp. apply in_map_iff in Hp as (q & <- & _).
  apply strip_idempotent.
Qed.

(** Up to the encoder: with accepted seeds that torch accepts too and a step
    count that is not negative, the run reaches the encoder with the frame
    directory holding the rendered frames and the shell untouched. *)
Lemma predict_before_encoder {os : OS} (prompts : string) (seeds : option string)
    (w : world) :
  seeds_accepted int_max_str_digits seeds = true ->
  seeds_in_range prompts seeds = true ->
  0 <= num_steps ->
  exists wd,
    predict int_max_str_digits prompts seeds scheduler num_inference_steps guidance_scale
      num_steps fps w
    = bind (run_cmd (encoder_command fps)) (fun _ => ret video_path) wd
    /\ map fst (cog_out wd)
       = map frame_path
           (zrange 0 ((List.length (Py.split "|" prompts) - 1) * Z.to_nat num_steps))
    /\ shell_log wd = shell_log w.
Proof.
  intros Hs Hr HK.
  destruct (prepare_accepted int_max_str_digits prompts seeds w Hs)
    as (ss & w1 & Hp & Hl & Hsh & _).
  pose proof (prepare_in_range int_max_str_digits _ _ _ _ _ _ Hp Hr) as HR.
  rewrite (predict_after_prepare int_max_str_digits scheduler num_inference_steps
             guidance_scale num_steps fps _ _ _ _ _ _ Hp).
  pose proof (split_nonempty "|" prompts) as Hne.
  pose proof (rendered_paths (map Py.strip (Py.split "|" prompts)) ss) as R.
  rewrite length_map in R. specialize (R Hl).
  destruct (Py.split "|" prompts) as [|p0 ps]; [contradiction|].
  destruct ss as [|s0 ss]; [discriminate Hl|].
  cbn [map List.length] in *.
  assert (HL : List.length (map Py.strip ps) = List.length ss)
    by (rewrite length_map; lia).
  unfold bind at 1.
  rewrite (interpolate_run scheduler num_inference_steps guidance_scale num_steps
             _ _ _ _ _ HL HR HK).
  eexists. split; [reflexivity|]. cbn [cog_out shell_log app].
  split; [exact R | exact Hsh].
Qed.

(** With accepted seeds the files in the frame directory after the run,
    however it ends, are numbered consecutively from 0. *)
Lemma predict_paths {os : OS} (prompts : string) (seeds : option string) (w : world) :
  seeds_accepted int_max_str_digits seeds = true ->
  exists m,
    map fst (cog_out (snd (predict int_max_str_digits prompts seeds scheduler
                             num_inference_steps guidance_scale num_steps fps w)))
    = map frame_path (zrange 0 m).
Proof.
  intros Hs.
  destruct (prepare_accepted int_max_str_digits prompts seeds w Hs)
    as (ss & w1 & Hp & _).
  rewrite (predict_after_prepare int_max_str_digits scheduler num_inference_steps
             guidance_scale num_steps fps _ _ _ _ _ _ Hp).
  match goal with
  | |- context [bind (interpolate _ _ _ _ ?ps ?sd) _ ?wd] =>
      destruct (interpolate_paths scheduler num_inference_steps guidance_scale
                  num_steps ps sd wd) as [m Hm];
      destruct (interpolate scheduler num_inference_steps guidance_scale num_steps
                  ps sd wd) as [[a|e] w2] eqn:E
  end; exists m; unfold bind at 1; rewrite E; cbn [snd cog_out app] in Hm.
  - rewrite encoder_keeps_frames. exact Hm.
  - exact Hm.
Qed.

(** C2 (as amended): a run over N prompts with a step count K >= 0, on
    seeds torch accepts, leaves exactly the files [cog_out/frame%06d.jpg] numbered
    0, 1, ..., (N-1)*K - 1, in that order: (N-1)*K frames under pairwise
    distinct names, the numbering never starting over between prompt pairs;
    the number in a name reads back as the frame index. *)
Theorem predict_frame_files {os : OS} (prompts : string) (seeds : option string)
    (w : world) :
  seeds_accepted int_max_str_digits seeds = true ->
  seeds_in_range prompts seeds = true ->
  0 <= num_steps ->
  map fst (cog_out (snd (predict int_max_str_digits prompts seeds scheduler
                           num_inference_steps guidance_scale num_steps fps w)))
  = map (fun i => ("cog_out/frame" ++ Py.fmt_06d i ++ ".jpg")%string)
      (zrange 0 ((List.length (Py.split "|" prompts) - 1) * Z.to_nat num_steps))
  /\ NoDup (map fst (cog_out (snd (predict int_max_str_digits prompts seeds scheduler
                                     num_inference_steps guidance_scale num_steps fps w))))
  /\ (forall i, 0 <= i -> Py.decimal_value 0 (Py.fmt_06d i) = i).
Proof.
  intros Hs Hr HK.
  destruct (predict_before_encoder prompts seeds w Hs Hr HK) as (wd & -> & Hc & _).
  rewrite encoder_keeps_frames, Hc.
  split; [reflexivity|]. split; [apply frame_paths_NoDup | exact fmt_06d_value].
Qed.

(** X7: no frame of a run overwrites another: the files left in the frame
    directory have pairwise distinct paths. *)
Theorem predict_frames_distinct {os : OS} (prompts : string) (seeds : option string)
    (w : world) :
  seeds_accepted int_max_str_digits seeds = true ->
  0 <= num_steps ->
  NoDup (map fst (cog_out (snd (predict int_max_str_digits prompts seeds scheduler
                                  num_inference_steps guidance_scale num_steps fps w)))).
Proof.
  intros Hs HK.
  destruct (predict_paths prompts seeds w Hs) as [m ->]. apply frame_paths_NoDup.
Qed.

(** X9: with accepted seeds that torch accepts too, a step count that is
    not negative and an encoder call that returns, the run returns the video
    path whatever the exit status; the encoder is invoked exactly once, and
    the frame directory holds (N-1)*K files. *)
Theorem predict_completes {os : OS} (prompts : string) (seeds : option string)
    (status : Z) (w : world) :
  seeds_accepted int_max_str_digits seeds = true ->
  seeds_in_range prompts seeds = true ->
  0 <= num_steps ->
  subprocess_call (encoder_command fps) = Returned status ->
  exists w',
    predict int_max_str_digits prompts seeds scheduler num_inference_steps guidance_scale
      num_steps fps w = (Ok video_path, w')
    /\ shell_log w' = shell_log w ++ [encoder_command fps]
    /\ List.length (cog_out w')
       = ((List.length (Py.split "|" prompts) - 1) * Z.to_nat num_steps)%nat.
Proof.
  intros Hs Hr HK Hc.
  destruct (predict_before_encoder prompts seeds w Hs Hr HK) as (wd & -> & Hf & Hsh).
  unfold bind at 1. rewrite (run_cmd_returned _ status _ Hc). unfold ret.
  eexists. split; [reflexivity|]. cbn [shell_log cog_out].
  split; [now rewrite Hsh|].
  rewrite <- (length_map fst), Hf, length_map. apply zrange_length.
Qed.

(** X10: on a run that reaches the encoder (accepted seeds that torch
    accepts too, a step count that is not negative), a keyboard interrupt
    during the encoding makes the run raise [NameError] instead of
    returning; the frames stay in the frame directory. *)
Theorem predict_interrupted {os : OS} (prompts : string) (seeds : option string)
    (w : world) :
  seeds_accepted int_max_str_digits seeds = true ->
  seeds_in_range prompts seeds = true ->
  0 <= num_steps ->
  subprocess_call (encoder_command fps) = KeyboardInterrupt ->
  exists w',
    predict int_max_str_digits prompts seeds scheduler num_inference_steps guidance_scale
      num_steps fps w = (Raise (NameError "sys"), w')
    /\ map fst (cog_out w')
       = map frame_path
           (zrange 0 ((List.length (Py.split "|" prompts) - 1) * Z.to_nat num_steps))
    /\ shell_log w' = shell_log w ++ [encoder_command fps].
Proof.
  intros Hs Hr HK Hc.
  destruct (predict_before_encoder prompts seeds w Hs Hr HK) as (wd & -> & Hf & Hsh).
  unfold bind at 1. unfold run_cmd. unfold bind at 1. unfold call at 1. rewrite Hc.
  cbn. eexists. split; [reflexivity|]. cbn [shell_log cog_out].
  split; [exact Hf | now rewrite Hsh].
Qed.

(** X8: with two or more prompts, on seeds torch accepts, a negative step
    count makes the run raise the [ValueError] of [np.linspace] as soon as
    the first pair is entered: the frame directory has been emptied, no
    frame is written and the encoder is not invoked. *)
Theorem predict_negative_steps {os : OS} (prompts : string) (seeds : option string)
    (w : world) :
  seeds_accepted int_max_str_digits seeds = true ->
  seeds_in_range prompts seeds = true ->
  num_steps < 0 ->
  (2 <= List.length (Py.split "|" prompts))%nat ->
  exists w',
    predict int_max_str_digits prompts seeds scheduler num_inference_steps guidance_scale
      num_steps fps w
    = (Raise (ValueError
                ("Number of samples, " ++ Py.str num_steps ++ ", must be non-negative.")),
       w')
    /\ cog_out w' = []
    /\ shell_log w' = shell_log w.
Proof.
  intros Hs Hr HK HN.
  destruct (prepare_accepted int_max_str_digits prompts seeds w Hs)
    as (ss & w1 & Hp & Hl & Hsh & _).
  pose proof (prepare_in_range int_max_str_digits _ _ _ _ _ _ Hp Hr) as HR.
  rewrite (predict_after_prepare int_max_str_digits scheduler num_inference_steps
             guidance_scale num_steps fps _ _ _ _ _ _ Hp).
  destruct (Py.split "|" prompts) as [|p0 [|p1 ps]]; cbn [List.length] in HN; try lia.
  destruct ss as [|s0 [|s1 ss]]; try discriminate Hl.
  apply Forall_cons_iff in HR as [H0 HR]. apply Forall_cons_iff in HR as [H1 _].
  cbn [map]. unfold bind at 1.
  cbn [interpolate combine].
  unfold bind at 1. unfold lift at 1. rewrite (seeded_randn_ok _ _ H0).
  cbn [pairs_loop].
  unfold bind at 1. unfold lift at 1. rewrite (seeded_randn_ok _ _ H1).
  unfold bind at 1. unfold lift at 1.
  unfold linspace. destruct (num_steps <? 0) eqn:E; [|apply Z.ltb_ge in E; lia].
  eexists. split; [reflexivity|]. split; [reflexivity | exact Hsh].
Qed.

(** X4: when the seed string gives a seed for every prompt, the run does
    not depend on the entropy source: two runs that differ only in the
    bytes [os.urandom] would deliver end in the same result and world. *)
Theorem predict_reproducible (entropy1 entropy2 : nat -> Byte.byte)
    (fate : string -> call_outcome) (prompts seeds : string) (w : world) :
  forallb (acceptable_seed int_max_str_digits) (seed_tokens seeds) = true ->
  (List.length (Py.split "|" prompts) <= List.length (seed_tokens seeds))%nat ->
  predict (os := {| entropy := entropy1; subprocess_call := fate |})
    int_max_str_digits prompts (Some seeds) scheduler num_inference_steps guidance_scale
    num_steps fps w
  = predict (os := {| entropy := entropy2; subprocess_call := fate |})
      int_max_str_digits prompts (Some seeds) scheduler num_inference_steps guidance_scale
      num_steps fps w.
Proof.
  intros Ha HL. unfold predict. unfold bind at 1. symmetry. unfold bind at 1.
  rewrite (prepare_given (os := {| entropy := entropy1; subprocess_call := fate |})
             int_max_str_digits prompts seeds w Ha).
  rewrite (prepare_given (os := {| entropy := entropy2; subprocess_call := fate |})
             int_max_str_digits prompts seeds w Ha).
  cbv zeta. rewrite !length_map.
  destruct (_ <? _)%nat; [reflexivity|].
  replace (List.length (Py.split "|" prompts) - List.length (seed_tokens seeds))%nat
    with O by lia.
  reflexivity.
Qed.

End RunFacts.

(** ** Frames by index *)

Section FrameFacts.

Context {np : Numpy} {tc : Torch np} {pl : Pipeline tc}.

Variable scheduler : scheduler_choice.
Variable num_inference_steps : Z.
Variable guidance_scale : Q.
Variable num_steps : Z.

Lemma render_steps_length (embeds_a embeds_b latents_a latents_b : tensor)
    (ts : list Q) (f : Z) :
  List.length (render_steps scheduler num_inference_steps guidance_scale
                 embeds_a embeds_b latents_a latents_b ts f) = List.length ts.
Proof. rewrite <- (length_map fst), render_steps_paths, length_map. apply zrange_length. Qed.

Lemma render_steps_nth (embeds_a embeds_b latents_a latents_b : tensor)
    (ts : list Q) (f : Z) (i : nat) :
  (i < List.length ts)%nat ->
  nth_error (render_steps scheduler num_inference_steps guidance_scale
               embeds_a embeds_b latents_a latents_b ts f) i
  = Some (frame_path (f + Z.of_nat i),
          render_frame scheduler num_inference_steps guidance_scale
            embeds_a embeds_b latents_a latents_b (nth i ts 0%Q)).
Proof.
  revert f i; induction ts as [|t ts IH]; intros f i Hi; cbn [List.length] in Hi; [lia|].
  destruct i as [|i]; cbn [render_steps nth_error nth].
  - now rewrite Z.add_0_r.
  - rewrite IH by lia. do 3 f_equal. lia.
Qed.

Lemma render_pairs_nth (p : string) (ps : list string) (s : Z) (ss : list Z)
    (ts : list Q) (f : Z) (j i : nat) :
  List.length ps = List.length ss ->
  (j < List.length ps)%nat -> (i < List.length ts)%nat ->
  nth_error (render_pairs scheduler num_inference_steps guidance_scale
               (embed_text p) (torch_randn pipeline_device s) (combine ps ss) ts f)
            (j * List.length ts + i)
  = Some (frame_path (f + Z.of_nat (j * List.length ts + i)),
          render_frame scheduler num_inference_steps guidance_scale
            (embed_text (nth j (p :: ps) ""))
            (embed_text (nth (S j) (p :: ps) ""))
            (torch_randn pipeline_device (nth j (s :: ss) 0))
            (torch_randn pipeline_device (nth (S j) (s :: ss) 0))
            (nth i ts 0%Q)).
Proof.
  revert p s ss f j; induction ps as [|p1 ps IH]; intros p s ss f j HL Hj Hi;
    cbn [List.length] in Hj; [lia|].
  destruct ss as [|s1 ss]; [discriminate HL|]. cbn [List.length] in HL.
  cbn [combine render_pairs].
  destruct j as [|j].
  - cbn [Nat.mul Nat.add]. rewrite nth_error_app1 by (rewrite render_steps_length; lia).
    now rewrite render_steps_nth.
  - rewrite nth_error_app2 by (rewrite render_steps_length; cbn [Nat.mul]; lia).
    rewrite render_steps_length.
    replace (S j * List.length ts + i - List.length ts)%nat
      with (j * List.length ts + i)%nat by (cbn [Nat.mul]; lia).
    rewrite IH by lia. cbn [nth]. do 3 f_equal. cbn [Nat.mul]. lia.
Qed.

(** X11: on seeds torch accepts, the frame with index j*K + i (i-th step of
    the j-th prompt pair) is saved under that number and is the image sampled between prompt j
    and prompt j+1, and between the latents of seed j and seed j+1, at the
    i-th sample of [np.linspace(0, 1, K)]. *)
Theorem interpolate_frame_at (p : string) (ps : list string) (s : Z) (ss : list Z)
    (w : world) (j i : nat) :
  List.length ps = List.length ss ->
  Forall (fun seed => manual_seed_ok seed = true) (s :: ss) ->
  0 <= num_steps ->
  (j < List.length ps)%nat -> (i < Z.to_nat num_steps)%nat ->
  nth_error
    (cog_out (snd (interpolate scheduler num_inference_steps guidance_scale num_steps
                     (p :: ps) (s :: ss) w)))
    (List.length (cog_out w) + (j * Z.to_nat num_steps + i))
  = Some (frame_path (Z.of_nat (j * Z.to_nat num_steps + i)),
          render_frame scheduler num_inference_steps guidance_scale
            (embed_text (nth j (p :: ps) ""))
            (embed_text (nth (S j) (p :: ps) ""))
            (torch_randn pipeline_device (nth j (s :: ss) 0))
            (torch_randn pipeline_device (nth (S j) (s :: ss) 0))
            (nth i (linspace_samples 0 1 num_steps) 0%Q)).
Proof.
  intros HL HR HK Hj Hi.
  rewrite (interpolate_run scheduler num_inference_steps guidance_scale num_steps
             _ _ _ _ _ HL HR HK).
  cbn [snd cog_out]. rewrite nth_error_app2 by lia.
  replace (List.length (cog_out w) + (j * Z.to_nat num_steps + i) - List.length (cog_out w))%nat
    with (j * Z.to_nat num_steps + i)%nat by lia.
  unfold rendered.
  pose proof (linspace_samples_length 0 1 num_steps) as L.
  rewrite <- L at 1. rewrite render_pairs_nth by (assumption || lia).
  rewrite L, Z.add_0_l. reflexivity.
Qed.

(** From two samples on, the samples of [np.linspace(0, 1, num)] strictly
    increase. *)
Lemma linspace_increasing (num : Z) (i j : nat) :
  2 <= num -> (i < j)%nat -> (j < Z.to_nat num)%nat ->
  (nth i (linspace_samples 0 1 num) 0 < nth j (linspace_samples 0 1 num) 0)%Q.
Proof.
  intros H Hij Hj.
  rewrite !linspace_closed_form by (assumption || lia).
  unfold Qdiv. apply Qmult_lt_compat_r.
  - apply Qinv_lt_0_compat. unfold Qlt; simpl; lia.
  - rewrite <- Zlt_Qlt. lia.
Qed.

(** X12: from two steps on, and on seeds torch accepts, the frames of every
    prompt pair are rendered at parameters that strictly increase from one
    step to the next. *)
Theorem interpolate_parameter_increasing (p : string) (ps : list string) (s : Z)
    (ss : list Z) (w : world) :
  List.length ps = List.length ss ->
  Forall (fun seed => manual_seed_ok seed = true) (s :: ss) ->
  2 <= num_steps ->
  exists ts,
    cog_out (snd (interpolate scheduler num_inference_steps guidance_scale num_steps
                    (p :: ps) (s :: ss) w))
    = cog_out w
      ++ render_pairs scheduler num_inference_steps guidance_scale
           (embed_text p) (torch_randn pipeline_device s) (combine ps ss) ts 0
    /\ List.length ts = Z.to_nat num_steps
    /\ (forall i j, (i < j)%nat -> (j < List.length ts)%nat ->
          (nth i ts 0 < nth j ts 0)%Q).
Proof.
  intros HL HR HK. exists (linspace_samples 0 1 num_steps).
  rewrite (interpolate_run scheduler num_inference_steps guidance_scale num_steps
             _ _ _ _ w HL HR) by lia.
  split; [reflexivity|]. split; [apply linspace_samples_length|].
  intros i j Hij Hj. rewrite linspace_samples_length in Hj.
  now apply linspace_increasing.
Qed.

End FrameFacts.

Lemma interpolate_parameter_increasing_witness :
  List.length ["b"; "c"] = List.length [2; 3]
  /\ Forall (fun seed => manual_seed_ok seed = true) (1 :: [2; 3])
  /\ 2 <= 3
  /\ exists ts,
       cog_out (snd (@interpolate _ _ Dry.pipeline klms 50 (15 # 2) 3
                       ("a" :: ["b"; "c"]) (1 :: [2; 3]) Dry.w0))
       = cog_out Dry.w0
         ++ @render_pairs _ _ Dry.pipeline klms 50 (15 # 2)
              (@embed_text _ _ Dry.pipeline "a")
              (torch_randn (@pipeline_device _ _ Dry.pipeline) 1)
              (combine ["b"; "c"] [2; 3]) ts 0
       /\ List.length ts = Z.to_nat 3
       /\ (forall i j, (i < j)%nat -> (j < List.length ts)%nat ->
             (nth i ts 0 < nth j ts 0)%Q).
Proof.
  split; [reflexivity|]. split; [repeat constructor|]. split; [lia|].
  apply (@interpolate_parameter_increasing _ _ Dry.pipeline klms 50 (15 # 2) 3
           "a" ["b"; "c"] 1 [2; 3] Dry.w0);
    [reflexivity | repeat constructor | lia].
Defined.

(** ** The scheduler table *)

(** X13: the names the [scheduler] input accepts are exactly the keys of
    [self.SCHEDULERS], the default among them, so the lookup at line 116
    cannot raise [KeyError] on an accepted name; the three schedulers are
    built with the same beta schedule. *)
Theorem schedulers_cover_choices (key : string) :
  (In key scheduler_input_choices
   <-> exists o, dict_getitem SCHEDULERS key = Some o)
  /\ In scheduler_input_default scheduler_input_choices
  /\ (forall o, dict_getitem SCHEDULERS key = Some o ->
        beta_start o = (85 # 100000)%Q /\ beta_end o = (12 # 1000)%Q
        /\ beta_schedule o = "scaled_linear").
Proof.
  split; [|split].
  - split.
    + intros [<- | [<- | [<- | []]]]; eexists; reflexivity.
    + intros [o H]. unfold dict_getitem, SCHEDULERS in H. cbn [find fst] in H.
      destruct ("default" =? key)%string eqn:E1;
        [apply String.eqb_eq in E1; subst; cbn; auto|].
      destruct ("ddim" =? key)%string eqn:E2;
        [apply String.eqb_eq in E2; subst; cbn; auto|].
      destruct ("klms" =? key)%string eqn:E3;
        [apply String.eqb_eq in E3; subst; cbn; auto|].
      discriminate H.
  - cbn. auto.
  - intros o H. unfold dict_getitem, SCHEDULERS in H. cbn [find fst] in H.
    destruct ("default" =? key)%string; [injection H as <-; auto|].
    destruct ("ddim" =? key)%string; [injection H as <-; auto|].
    destruct ("klms" =? key)%string; [injection H as <-; auto|].
    discriminate H.
Qed.

(** ** Further runs in the dry environment *)

Lemma prepare_prompts_trimmed_witness :
  @prepare _ _ Dry.pipeline (Dry.os (Returned 0)) 4300 " a cat || a dog " (Some "1|2|3")
    Dry.w0
  = (Ok (["a cat"; ""; "a dog"], [1; 2; 3]),
     mkWorld 0 ["Setting Random seeds."] (cog_out Dry.w0) [])
  /\ List.length ["a cat"; ""; "a dog"] = S (Py.count "|" " a cat || a dog ")
  /\ Forall (fun p => Py.strip p = p) ["a cat"; ""; "a dog"].
Proof.
  split; [reflexivity|].
  apply (@prepare_prompts_trimmed _ _ Dry.pipeline 4300 (Dry.os (Returned 0))
           " a cat || a dog " (Some "1|2|3") Dry.w0
           (mkWorld 0 ["Setting Random seeds."] (cog_out Dry.w0) []) _ [1; 2; 3]).
  reflexivity.
Defined.

Lemma predict_frame_files_witness :
  seeds_accepted 4300 (Some "42") = true
  /\ seeds_in_range "a cat | a dog | a horse" (Some "42") = true
  /\ 0 <= 3
  /\ map fst (cog_out (snd (@predict _ _ Dry.pipeline (Dry.os (Returned 1)) 4300
                              "a cat | a dog | a horse" (Some "42") klms 50 (15 # 2) 3 15
                              Dry.w0)))
     = map (fun i => ("cog_out/frame" ++ Py.fmt_06d i ++ ".jpg")%string)
         (zrange 0 ((List.length (Py.split "|" "a cat | a dog | a horse") - 1)
                    * Z.to_nat 3))
  /\ NoDup (map fst (cog_out (snd (@predict _ _ Dry.pipeline (Dry.os (Returned 1)) 4300
                                     "a cat | a dog | a horse" (Some "42") klms 50
                                     (15 # 2) 3 15 Dry.w0))))
  /\ (forall i, 0 <= i -> Py.decimal_value 0 (Py.fmt_06d i) = i).
Proof.
  split; [reflexivity|]. split; [reflexivity|]. split; [lia|].
  apply (@predict_frame_files _ _ Dry.pipeline 4300 klms 50 (15 # 2) 3 15
           (Dry.os (Returned 1)) "a cat | a dog | a horse" (Some "42") Dry.w0);
    [reflexivity | reflexivity | lia].
Defined.

(** Two prompts, three steps and a valid first seed of 2^64: seeding the
    generator raises and no frame is written, where (N-1)*K is 3. *)
Lemma frame_count_seed_overflow :
  seeds_accepted 4300 (Some "18446744073709551616") = true
  /\ ((List.length (Py.split "|" "a cat | a dog") - 1) * Z.to_nat 3 = 3)%nat
  /\ @predict _ _ Dry.pipeline (Dry.os (Returned 0)) 4300 "a cat | a dog"
       (Some "18446744073709551616") klms 50 (15 # 2) 3 15 Dry.w0
     = (Raise (RuntimeError "Overflow when unpacking long"),
        mkWorld 2
          ["Setting Random seeds."; "Seeds used for prompts are:";
           "a cat: 18446744073709551616"; "a dog: 2864"] [] []).
Proof. repeat split; vm_compute; reflexivity. Qed.

Lemma predict_frames_distinct_witness :
  seeds_accepted 4300 (Some "42") = true
  /\ 0 <= 3
  /\ NoDup (map fst (cog_out (snd (@predict _ _ Dry.pipeline (Dry.os (Returned 1)) 4300
                                    "a cat | a dog | a horse" (Some "42") klms 50 (15 # 2)
                                    3 15 Dry.w0)))).
Proof.
  split; [reflexivity|]. split; [lia|].
  apply (@predict_frames_distinct _ _ Dry.pipeline 4300 klms 50 (15 # 2) 3 15
           (Dry.os (Returned 1)) "a cat | a dog | a horse" (Some "42") Dry.w0);
    [reflexivity | lia].
Defined.

Lemma predict_completes_witness :
  seeds_accepted 4300 None = true
  /\ seeds_in_range "a cat | a dog" None = true
  /\ 0 <= 3
  /\ @subprocess_call (Dry.os (Returned 1)) (encoder_command 15) = Returned 1
  /\ exists w',
       @predict _ _ Dry.pipeline (Dry.os (Returned 1)) 4300 "a cat | a dog" None klms 50
         (15 # 2) 3 15 Dry.w0 = (Ok video_path, w')
       /\ shell_log w' = shell_log Dry.w0 ++ [encoder_command 15]
       /\ List.length (cog_out w')
          = ((List.length (Py.split "|" "a cat | a dog") - 1) * Z.to_nat 3)%nat.
Proof.
  split; [reflexivity|]. split; [reflexivity|]. split; [lia|]. split; [reflexivity|].
  apply (@predict_completes _ _ Dry.pipeline 4300 klms 50 (15 # 2) 3 15
           (Dry.os (Returned 1)) "a cat | a dog" None 1 Dry.w0);
    [reflexivity | reflexivity | lia | reflexivity].
Defined.

Lemma predict_interrupted_witness :
  seeds_accepted 4300 None = true
  /\ seeds_in_range "a cat | a dog" None = true
  /\ 0 <= 3
  /\ @subprocess_call (Dry.os KeyboardInterrupt) (encoder_command 15) = KeyboardInterrupt
  /\ exists w',
       @predict _ _ Dry.pipeline (Dry.os KeyboardInterrupt) 4300 "a cat | a dog" None klms
         50 (15 # 2) 3 15 Dry.w0 = (Raise (NameError "sys"), w')
       /\ map fst (cog_out w')
          = map (@frame_path)
              (zrange 0 ((List.length (Py.split "|" "a cat | a dog") - 1) * Z.to_nat 3))
       /\ shell_log w' = shell_log Dry.w0 ++ [encoder_command 15].
Proof.
  split; [reflexivity|]. split; [reflexivity|]. split; [lia|]. split; [reflexivity|].
  apply (@predict_interrupted _ _ Dry.pipeline 4300 klms 50 (15 # 2) 3 15
           (Dry.os KeyboardInterrupt) "a cat | a dog" None Dry.w0);
    [reflexivity | reflexivity | lia | reflexivity].
Defined.

Lemma predict_negative_steps_witness :
  seeds_accepted 4300 (Some "1|2") = true
  /\ seeds_in_range "a|b" (Some "1|2") = true
  /\ -1 < 0
  /\ (2 <= List.length (Py.split "|" "a|b"))%nat
  /\ exists w',
       @predict _ _ Dry.pipeline (Dry.os (Returned 0)) 4300 "a|b" (Some "1|2") klms 50
         (15 # 2) (-1) 15 Dry.w0
       = (Raise (ValueError
                   ("Number of samples, " ++ Py.str (-1) ++ ", must be non-negative.")),
          w')
       /\ cog_out w' = []
       /\ shell_log w' = shell_log Dry.w0.
Proof.
  split; [reflexivity|]. split; [reflexivity|]. split; [lia|]. split; [vm_compute; lia|].
  apply (@predict_negative_steps _ _ Dry.pipeline 4300 klms 50 (15 # 2) (-1) 15
           (Dry.os (Returned 0)) "a|b" (Some "1|2") Dry.w0);
    [reflexivity | reflexivity | lia | vm_compute; lia].
Defined.

Lemma predict_reproducible_witness :
  forallb (acceptable_seed 4300) (seed_tokens "1|2") = true
  /\ (List.length (Py.split "|" "a|b") <= List.length (seed_tokens "1|2"))%nat
  /\ @predict _ _ Dry.pipeline {| entropy := Dry.byte_at; subprocess_call := fun _ => Returned 0 |}
       4300 "a|b" (Some "1|2") klms 50 (15 # 2) 3 15 Dry.w0
     = @predict _ _ Dry.pipeline {| entropy := fun _ => Byte.xff; subprocess_call := fun _ => Returned 0 |}
         4300 "a|b" (Some "1|2") klms 50 (15 # 2) 3 15 Dry.w0.
Proof.
  split; [reflexivity|]. split; [vm_compute; lia|].
  apply (@predict_reproducible _ _ Dry.pipeline 4300 klms 50 (15 # 2) 3 15
           Dry.byte_at (fun _ => Byte.xff) (fun _ => Returned 0) "a|b" "1|2" Dry.w0);
    [reflexivity | vm_compute; lia].
Defined.

Lemma interpolate_frame_at_witness :
  List.length ["b"; "c"] = List.length [2; 3]
  /\ Forall (fun seed => manual_seed_ok seed = true) (1 :: [2; 3])
  /\ 0 <= 2
  /\ (1 < List.length ["b"; "c"])%nat
  /\ (0 < Z.to_nat 2)%nat
  /\ nth_error
       (cog_out (snd (@interpolate _ _ Dry.pipeline klms 50 (15 # 2) 2
                        ("a" :: ["b"; "c"]) (1 :: [2; 3]) Dry.w0)))
       (List.length (cog_out Dry.w0) + (1 * Z.to_nat 2 + 0))
     = Some (frame_path (Z.of_nat (1 * Z.to_nat 2 + 0)),
             @render_frame _ _ Dry.pipeline klms 50 (15 # 2)
               (@embed_text _ _ Dry.pipeline (nth 1 ("a" :: ["b"; "c"]) ""))
               (@embed_text _ _ Dry.pipeline (nth 2 ("a" :: ["b"; "c"]) ""))
               (torch_randn (@pipeline_device _ _ Dry.pipeline) (nth 1 (1 :: [2; 3]) 0))
               (torch_randn (@pipeline_device _ _ Dry.pipeline) (nth 2 (1 :: [2; 3]) 0))
               (nth 0 (linspace_samples 0 1 2) 0%Q)).
Proof.
  split; [reflexivity|]. split; [repeat constructor|].
  split; [lia|]. split; [cbn; lia|]. split; [cbn; lia|].
  apply (@interpolate_frame_at _ _ Dry.pipeline klms 50 (15 # 2) 2
           "a" ["b"; "c"] 1 [2; 3] Dry.w0 1%nat 0%nat);
    [reflexivity | repeat constructor | lia | cbn; lia | cbn; lia].
Defined.

(** ** What a run prints *)

Section OutputFacts.

Context {np : Numpy} {tc : Torch np} {pl : Pipeline tc} {os : OS}.

Variable int_max_str_digits : nat.
Variable scheduler : scheduler_choice.
Variable num_inference_steps : Z.
Variable guidance_scale : Q.
Variable num_steps : Z.
Variable fps : Z.

(** X14: a run on seeds torch accepts that completes prints, in this
    order: at most the notice that seeds are drawn, the header of the seed
    listing, one line
    ["prompt: seed"] per prompt in the order of the prompts, and the
    progress lines of the driver; nothing is printed for the encoder. *)
Theorem predict_stdout (prompts : string) (seeds : option string) (status : Z)
    (w : world) :
  seeds_accepted int_max_str_digits seeds = true ->
  seeds_in_range prompts seeds = true ->
  0 <= num_steps ->
  subprocess_call (encoder_command fps) = Returned status ->
  exists aligned_seeds setting,
    List.length aligned_seeds = List.length (Py.split "|" prompts)
    /\ (setting = [] \/ setting = ["Setting Random seeds."])
    /\ stdout (snd (predict int_max_str_digits prompts seeds scheduler num_inference_steps
                      guidance_scale num_steps fps w))
       = stdout w ++ setting
         ++ "Seeds used for prompts are:"
            :: map seed_line (combine (map Py.strip (Py.split "|" prompts)) aligned_seeds)
         ++ map (count_line (Z.of_nat (List.length (Py.split "|" prompts) - 1) * num_steps))
              (filter (progress_due num_steps)
                 (zrange 0 ((List.length (Py.split "|" prompts) - 1) * Z.to_nat num_steps))).
Proof.
  intros Hs Hr HK Hc.
  destruct (prepare_accepted int_max_str_digits prompts seeds w Hs)
    as (ss & w1 & Hp & Hl & _ & setting & Hout & Hset).
  pose proof (prepare_in_range int_max_str_digits _ _ _ _ _ _ Hp Hr) as HR.
  exists ss, setting. split; [exact Hl|]. split; [exact Hset|].
  rewrite (predict_after_prepare int_max_str_digits scheduler num_inference_steps
             guidance_scale num_steps fps _ _ _ _ _ _ Hp).
  pose proof (split_nonempty "|" prompts) as Hne.
  destruct (Py.split "|" prompts) as [|p0 ps]; [contradiction|].
  destruct ss as [|s0 ss]; [discriminate Hl|].
  cbn [map List.length] in *.
  assert (HL : List.length (map Py.strip ps) = List.length ss)
    by (rewrite length_map; lia).
  unfold bind at 1.
  rewrite (interpolate_run scheduler num_inference_steps guidance_scale num_steps
             _ _ _ _ _ HL HR HK).
  unfold bind at 1. rewrite (run_cmd_returned _ status _ Hc). unfold ret.
  cbn [snd stdout]. rewrite Hout, length_map.
  replace (S (List.length ps) - 1)%nat with (List.length ps) by lia.
  rewrite <- !app_assoc. reflexivity.
Qed.

End OutputFacts.

Lemma predict_stdout_witness :
  seeds_accepted 4300 (Some "42") = true
  /\ seeds_in_range "a|b|c" (Some "42") = true
  /\ 0 <= 2
  /\ @subprocess_call (Dry.os (Returned 1)) (encoder_command 15) = Returned 1
  /\ exists aligned_seeds setting,
       List.length aligned_seeds = List.length (Py.split "|" "a|b|c")
       /\ (setting = [] \/ setting = ["Setting Random seeds."])
       /\ stdout (snd (@predict _ _ Dry.pipeline (Dry.os (Returned 1)) 4300 "a|b|c"
                         (Some "42") klms 50 (15 # 2) 2 15 Dry.w0))
          = stdout Dry.w0 ++ setting
            ++ "Seeds used for prompts are:"
               :: map seed_line (combine (map Py.strip (Py.split "|" "a|b|c")) aligned_seeds)
            ++ map (count_line (Z.of_nat (List.length (Py.split "|" "a|b|c") - 1) * 2))
                 (filter (progress_due 2)
                    (zrange 0 ((List.length (Py.split "|" "a|b|c") - 1) * Z.to_nat 2))).
Proof.
  split; [reflexivity|]. split; [reflexivity|]. split; [lia|]. split; [reflexivity|].
  apply (@predict_stdout _ _ Dry.pipeline (Dry.os (Returned 1)) 4300 klms 50 (15 # 2) 2 15
           "a|b|c" (Some "42") 1 Dry.w0);
    [reflexivity | reflexivity | lia | reflexivity].
Defined.

Example dry_run_output :
  stdout (snd (@predict _ _ Dry.pipeline (Dry.os (Returned 1)) 4300 "a|b|c"
                 (Some "42") klms 50 (15 # 2) 2 15 Dry.w0))
  = ["Setting Random seeds."; "Seeds used for prompts are:";
     "a: 42"; "b: 2864"; "c: 21882"; "COUNT: 1/4"; "COUNT: 3/4"].
Proof. vm_compute. reflexivity. Qed.
